(** * rtc-ctl: a model of the DS1302 time-of-year (TOY) clock utility

    A shallow embedding of [rtc-ctl.c]: the register model (BCD, register
    offsets and masks), the civil-time codec ([decodeTOY] and the encoding
    half of [setTOY]), the bit transport ([writeTOY], [readTOY]), the
    calibration store ([readCalib], [writeCalib]) and the calibration engine
    ([setTOY], [readUpdate]).

    Conventions.
    - C integers are [Z]; conversions to [unsigned int] and [unsigned char]
      are written out ([u32], [u8]).
    - A [long double] is a rational ([Q]) that the format represents: every
      operation rounds its exact result to [LDBL_MANT_DIG] significant bits,
      ties to even ([ld_round]; 53 bits where [long double] is [double], 64
      on x86, 113 for binary128), each operation on its own (no fused
      multiply-add).  Results that are not finite normal numbers in every
      one of these formats (magnitudes outside 2^-1000 .. 2^1000, division
      by zero, a negative zero) are outside the model.  A conversion from
      [long double] to an integer type truncates toward zero ([Qtrunc]) and
      is undefined when the value does not fit.
    - The program's effects (pins, files, host clock, stderr) are threaded
      through a state-and-exit monad [M] over a [world]; what the outside
      answers (the level of the IO pin, the host clock, I/O faults) comes
      from an immutable [env].
    - The widths of [unsigned long] and [time_t] and the precision of
      [long double] are parameters ([ULONG_BITS], [TIME_BITS],
      [LDBL_MANT_DIG]).
    - A run that leaves what the model covers (undefined behaviour in C, a
      [long double] outside the model, a number in the calibration file
      that the model of [strtold] does not cover) has the outcome [Undef]:
      the model gives no answer rather than a wrong one.
    - The one unbounded-looking loop (the stabilized read) takes a [fuel]
      argument; running out of it is the outcome [Hang], and the loop is
      proved never to hang once [fuel] exceeds [TOY_MAX_READS].
    - stdout (the report itself, debug dumps), syslog and the time zone are
      not modelled; functions return what they would print or store. *)

From Stdlib Require Import ZArith QArith Qround Qabs Lqa.
From Stdlib Require Import String Ascii List Lia Bool.
From stdpp Require Import gmap strings.
Import ListNotations.
Open Scope Z_scope.

(** ** Integer conversions *)

Definition u32 (z : Z) : Z := z mod 2 ^ 32.
Definition u8 (z : Z) : Z := z mod 2 ^ 8.

(** ** Register model *)

(** [BCD]: 2-digit BCD from binary, on [unsigned int]. *)
Definition BCD (n : Z) : Z :=
  let n := u32 n in
  u32 (Z.lor (Z.shiftl (n / 10) 4) (n mod 10)).

(** [BIN]: binary from 2-digit BCD, on [unsigned int]. *)
Definition BIN (bcd : Z) : Z :=
  let bcd := u32 bcd in
  Z.land (Z.shiftr bcd 4) 0x0f * 10 + Z.land bcd 0x0f.

Definition TOY_READ : Z := 0x01.
Definition TOY_SCATTER : Z := 0x100.
Definition TOY_GATHER : Z := 0x100.

Definition TOY_SEC : Z := 0x80.
Definition TOY_M_HALT : Z := 0x80.
Definition TOY_M_SEC : Z := 0x7F.
Definition TOY_MIN : Z := 0x82.
Definition TOY_M_MIN : Z := 0x7F.
Definition TOY_HR : Z := 0x84.
Definition TOY_M_12HR : Z := 0x80.
Definition TOY_M_PM : Z := 0x20.
Definition TOY_M_HR24 : Z := 0x3F.
Definition TOY_M_HR12 : Z := 0x1F.
Definition TOY_DAY : Z := 0x86.
Definition TOY_MON : Z := 0x88.
Definition TOY_M_MON_MBZ : Z := 0xE0.
Definition TOY_WDY : Z := 0x8A.
Definition TOY_YR : Z := 0x8C.
Definition TOY_CTL : Z := 0x8E.
Definition TOY_M_WP : Z := 0x80.
Definition TOY_TCS : Z := 0x90.
Definition TOY_CBURST : Z := 0xBE.
Definition TOY_RAM_BASE : Z := 0xC0.
Definition TOY_RAM_END : Z := 0xFC.
Definition TOY_RBURST : Z := 0xFE.

(** Offset of a register from the clock base. *)
Definition OFFSET (reg : Z) : Z := Z.land (Z.shiftr (reg - TOY_SEC) 1) 0x3F.

Definition TOY_CLK_REGS : Z := 1 + OFFSET TOY_CTL - OFFSET TOY_SEC.
Definition TOY_RAM_REGS : Z := 1 + OFFSET TOY_RAM_END - OFFSET TOY_RAM_BASE.

(** Maximum number of times to read the TOY looking for seconds to change. *)
Definition TOY_MAX_READS : Z := 30000.

(** Exit codes of [sysexits.h]. *)
Definition EX_OK : Z := 0.
Definition EX_USAGE : Z := 64.
Definition EX_UNAVAILABLE : Z := 69.
Definition EX_SOFTWARE : Z := 70.
Definition EX_OSERR : Z := 71.
Definition EX_IOERR : Z := 74.
Definition EX_CONFIG : Z := 78.

(** Command functions. *)
Definition F_READ : Z := 0.
Definition F_SET : Z := 1.
Definition F_SET2SYS : Z := 2.
Definition F_UPDATE : Z := 3.

(** The clock burst buffer [unsigned char clkregs[TOY_CLK_REGS]]. *)
Definition clkregs := list Z.

(** [clkregs[OFFSET(reg)]] *)
Definition reg_get (regs : clkregs) (reg : Z) : Z :=
  nth (Z.to_nat (OFFSET reg)) regs 0.

(** ** Civil time *)

(** The fields of [struct tm] the program reads or writes. *)
Record tm := mk_tm {
  tm_sec : Z; tm_min : Z; tm_hour : Z; tm_mday : Z;
  tm_mon : Z; tm_year : Z; tm_wday : Z; tm_yday : Z; tm_isdst : Z
}.

(** Days since 1970-01-01 of a proleptic Gregorian date, month in 1..12. *)
Definition days_from_civil (y m d : Z) : Z :=
  let y' := if m <=? 2 then y - 1 else y in
  let era := y' / 400 in
  let yoe := y' - era * 400 in
  let doy := (153 * (if m >? 2 then m - 3 else m + 9) + 2) / 5 + d - 1 in
  let doe := yoe * 365 + yoe / 4 - yoe / 100 + doy in
  era * 146097 + doe - 719468.

(** The inverse: (year, month 1..12, day 1..31) of a day number. *)
Definition civil_from_days (z : Z) : Z * Z * Z :=
  let z := z + 719468 in
  let era := z / 146097 in
  let doe := z - era * 146097 in
  let yoe := (doe - doe / 1460 + doe / 36524 - doe / 146096) / 365 in
  let doy := doe - (365 * yoe + yoe / 4 - yoe / 100) in
  let mp := (5 * doy + 2) / 153 in
  let d := doy - (153 * mp + 2) / 5 + 1 in
  let m := if mp <? 10 then mp + 3 else mp - 9 in
  (yoe + era * 400 + (if m <=? 2 then 1 else 0), m, d).

Section Platform.

(** Width in bits of [unsigned long] and of [time_t] on the target
    (32/32 on 32-bit Raspbian, 64/64 on the 64-bit systems). *)
Variable ULONG_BITS : Z.
Variable TIME_BITS : Z.

Definition ulong (z : Z) : Z := z mod 2 ^ ULONG_BITS.

Definition time_t_ok (t : Z) : bool :=
  (- 2 ^ (TIME_BITS - 1) <=? t) && (t <? 2 ^ (TIME_BITS - 1)).

(** libc [timegm]: the fields are normalised (months beyond 0..11 carry
    into the year, days, hours, minutes and seconds are summed); -1 when the
    result does not fit [time_t]. *)
Definition timegm (t : tm) : Z :=
  let y := tm_year t + 1900 + tm_mon t / 12 in
  let m := tm_mon t mod 12 in
  let days := days_from_civil y (m + 1) 1 + (tm_mday t - 1) in
  let r := days * 86400 + tm_hour t * 3600 + tm_min t * 60 + tm_sec t in
  if time_t_ok r then r else -1.

(** libc [gmtime_r]: [None] (a NULL return) when the year does not fit
    [int]. *)
Definition gmtime_r (t : Z) : option tm :=
  let days := t / 86400 in
  let rem := t mod 86400 in
  let '(y, m, d) := civil_from_days days in
  if (- 2 ^ 31 <=? y - 1900) && (y - 1900 <? 2 ^ 31) then
    Some {| tm_sec := rem mod 60; tm_min := rem / 60 mod 60;
            tm_hour := rem / 3600; tm_mday := d; tm_mon := m - 1;
            tm_year := y - 1900; tm_wday := (days + 4) mod 7;
            tm_yday := days - days_from_civil y 1 1; tm_isdst := 0 |}
  else None.

(** The register-to-[struct tm] half of [decodeTOY]: the hour register. *)
Definition decode_hour (hr : Z) : Z :=
  if negb (Z.land hr TOY_M_12HR =? 0) then
    let h := BIN (Z.land hr TOY_M_HR12) in
    if negb (Z.land hr TOY_M_PM =? 0) then
      if negb (h =? 12) then h + 12 else h
    else
      if h =? 12 then 0 else h
  else BIN (Z.land hr TOY_M_HR24).

(** [decodeTOY] up to the call of [timegm]. *)
Definition decodeTOY_tm (regs : clkregs) : tm :=
  {| tm_sec := BIN (Z.land (reg_get regs TOY_SEC) TOY_M_SEC);
     tm_min := BIN (Z.land (reg_get regs TOY_MIN) TOY_M_MIN);
     tm_hour := decode_hour (reg_get regs TOY_HR);
     tm_mday := BIN (reg_get regs TOY_DAY);
     tm_mon := BIN (reg_get regs TOY_MON) - 1;
     tm_year := BIN (reg_get regs TOY_YR) + 2000 - 1900;
     tm_wday := BIN (reg_get regs TOY_WDY) - 1;
     tm_yday := 0; tm_isdst := 0 |}.

(** The hour byte built by [setTOY] ([unsigned char hour]). *)
Definition encode_hour (hour12 : bool) (h : Z) : Z :=
  if hour12 then
    u8 (if h =? 0 then Z.lor TOY_M_12HR (BCD 12)
        else if h =? 12 then Z.lor (Z.lor TOY_M_12HR TOY_M_PM) (BCD 12)
        else if h >? 12 then Z.lor (Z.lor TOY_M_12HR TOY_M_PM) (BCD (h - 12))
        else Z.lor TOY_M_12HR (BCD h))
  else u8 (BCD h).

(** The eight registers built by [setTOY] from [newtime]. *)
Definition encode_clkregs (hour12 : bool) (t : tm) : clkregs :=
  [ u8 (BCD (tm_sec t));
    u8 (BCD (tm_min t));
    encode_hour hour12 (tm_hour t);
    u8 (BCD (tm_mday t));
    u8 (BCD (tm_mon t + 1));
    u8 (BCD (tm_wday t + 1));
    u8 (BCD (Z.rem (tm_year t + 1900) 100));
    TOY_M_WP ].

End Platform.

(** A valid hour register in 12-hour mode: flag set, unused bit 6 clear,
    the low five bits the BCD of an hour in 1..12 (bit 5 is AM/PM). *)
Definition valid_hr12 (hr : Z) : bool :=
  (0 <=? hr) && (hr <? 256)
  && negb (Z.land hr TOY_M_12HR =? 0) && (Z.land hr 0x40 =? 0)
  && (let h := BIN (Z.land hr TOY_M_HR12) in
      (1 <=? h) && (h <=? 12) && (BCD h =? Z.land hr TOY_M_HR12)).

(** A valid hour register in 24-hour mode: flag and bit 6 clear, the low
    six bits the BCD of an hour in 0..23. *)
Definition valid_hr24 (hr : Z) : bool :=
  (0 <=? hr) && (hr <? 256)
  && (Z.land hr TOY_M_12HR =? 0) && (Z.land hr 0x40 =? 0)
  && (let h := BIN (Z.land hr TOY_M_HR24) in
      (h <=? 23) && (BCD h =? Z.land hr TOY_M_HR24)).

(** The values 0, 1, ..., n-1. *)
Definition Zrange (n : nat) : list Z := map Z.of_nat (seq 0 n).

(** ** The world

    Everything the program touches: the three GPIO pins, the files, the
    host clock and stderr. *)

Inductive pin := CE | CK | IO.

(** What happens on the bus, in program order. *)
Inductive pin_event :=
| SetPin (p : pin) (v : bool)   (* setPinValue / GPIO_SET / GPIO_CLR *)
| SetInput                      (* setIO2input / gpio_fsel INPUT *)
| SetOutput                     (* setIO2output / gpio_fsel OUTPUT *)
| ReadPin (v : bool)            (* readPinValue / GPIO_IS_SET on IO *)
| Delay (usecs : Z).            (* usdelay *)

Record timespec := mk_timespec { tv_sec : Z; tv_nsec : Z }.

(** A file: its bytes and its access and modification times. *)
Record file := mk_file { f_data : string; f_atime : Z; f_mtime : Z }.

(** The file operations that can fail. *)
Inductive fsop :=
| OpOpenR (path : string)
| OpFstat (path : string)
| OpOpenW (path : string)
| OpPutc (path : string) (pos : nat)
| OpPrintf (path : string)
| OpClose (path : string)
| OpUtime (path : string)
| OpRename (src dst : string).

Record world := mk_world {
  w_pins : list pin_event;       (* bus events, most recent first *)
  w_nin : nat;                   (* samples of the IO pin taken so far *)
  w_fs : gmap string file;       (* the files *)
  w_nclk : nat;                  (* calls of clock_gettime so far *)
  w_err : list string;           (* lines on stderr, most recent first *)
  w_systime : option Z           (* the system time set by settimeofday *)
}.

(** What the outside answers. *)
Record env := mk_env {
  io_level : nat -> bool;                (* IO pin level at the k-th sample *)
  host_clock : nat -> option timespec;   (* k-th clock_gettime, None on error *)
  fs_fault : fsop -> bool;               (* does this file operation fail *)
  fs_now : Z;                            (* time stamped on files written *)
  settime_errno : option bool            (* settimeofday: None succeeds;
                                            on failure, whether errno is
                                            EPERM when the program tests it,
                                            after syslog and perror ran *)
}.

(** The command-line globals. *)
Record config := mk_config {
  debug : bool; quiet : bool; testmode : bool;
  calibfilename : option string;
  force : bool; hour12 : bool;
  calrundays : Z
}.

(** ** The monad: reader of [env], state [world], early [exit] *)

Inductive result (A : Type) :=
| Ret (a : A)          (* the call returns *)
| Exit (code : Z)      (* the process exits *)
| Hang                 (* a loop ran out of the fuel it was given *)
| Undef.               (* the run leaves what the model covers *)
Arguments Ret {A} a.
Arguments Exit {A} code.
Arguments Hang {A}.
Arguments Undef {A}.

Definition M (A : Type) : Type := env -> world -> result A * world.

Definition ret {A} (a : A) : M A := fun _ w => (Ret a, w).

Definition bind {A B} (c : M A) (k : A -> M B) : M B :=
  fun e w =>
    match c e w with
    | (Ret a, w') => k a e w'
    | (Exit code, w') => (Exit code, w')
    | (Hang, w') => (Hang, w')
    | (Undef, w') => (Undef, w')
    end.

Definition exit {A} (code : Z) : M A := fun _ w => (Exit code, w).

Definition undef {A} : M A := fun _ w => (Undef, w).

(** A value the model may not have. *)
Definition lift {A} (o : option A) : M A :=
  match o with
  | Some a => ret a
  | None => undef
  end.

(** Run [c]; when its value is outside the model, go on without it.  The
    value is asked for ([lift]) where the program first uses it. *)
Definition attempt {A} (c : M A) : M (option A) :=
  fun e w =>
    match c e w with
    | (Ret a, w') => (Ret (Some a), w')
    | (Exit code, w') => (Exit code, w')
    | (Hang, w') => (Hang, w')
    | (Undef, w') => (Ret None, w')
    end.

Declare Scope toy_scope.
Delimit Scope toy_scope with toy.
Notation "x <- c ;; k" := (bind c (fun x => k))
  (at level 100, c at next level, right associativity) : toy_scope.
Notation "c ;; k" := (bind c (fun _ => k))
  (at level 100, right associativity) : toy_scope.
Open Scope toy_scope.

Definition get_env : M env := fun e w => (Ret e, w).

Definition bus (ev : pin_event) : M unit :=
  fun _ w => (Ret tt, mk_world (ev :: w_pins w) (w_nin w) (w_fs w)
                               (w_nclk w) (w_err w) (w_systime w)).

Definition setPinValue (p : pin) (v : bool) : M unit := bus (SetPin p v).
Definition usdelay (usecs : Z) : M unit := bus (Delay usecs).
Definition setIO2input : M unit := bus SetInput.
Definition setIO2output : M unit := bus SetOutput.

Definition readPinValue : M bool :=
  fun e w =>
    let v := io_level e (w_nin w) in
    (Ret v, mk_world (ReadPin v :: w_pins w) (S (w_nin w)) (w_fs w)
                     (w_nclk w) (w_err w) (w_systime w)).

(** A line on stderr ([fprintf(stderr, ...)], [perror]). *)
Definition eprint (msg : string) : M unit :=
  fun _ w => (Ret tt, mk_world (w_pins w) (w_nin w) (w_fs w) (w_nclk w)
                               (msg :: w_err w) (w_systime w)).

Definition clock_gettime : M (option timespec) :=
  fun e w =>
    (Ret (host_clock e (w_nclk w)),
     mk_world (w_pins w) (w_nin w) (w_fs w) (S (w_nclk w)) (w_err w)
              (w_systime w)).

(** Decimal text of an integer ([%d], [%lu]). *)
Definition digit_char (d : Z) : ascii := ascii_of_nat (48 + Z.to_nat d).

Fixpoint dec_digits (fuel : nat) (n : Z) (acc : string) : string :=
  match fuel with
  | O => acc
  | S fuel' =>
      let acc' := String (digit_char (n mod 10)) acc in
      if n <? 10 then acc' else dec_digits fuel' (n / 10) acc'
  end.

Definition dec_of_nonneg (n : Z) : string :=
  dec_digits (S (Z.to_nat (Z.log2 n))) n EmptyString.

Definition dec_of_Z (n : Z) : string :=
  if n <? 0 then String "-" (dec_of_nonneg (- n)) else dec_of_nonneg n.

(** ** Bit transport *)

Definition bit0 (z : Z) : bool := negb (Z.land z 0x01 =? 0).

(** Shift [k] bits of [data] out, LSB first, with a full clock pulse per
    bit (the command and data loops of [writeTOY]). *)
Fixpoint write_bits (k : nat) (data : Z) : M unit :=
  match k with
  | O => ret tt
  | S k' =>
      setPinValue IO (bit0 data) ;;
      usdelay 2 ;;
      setPinValue CK true ;;
      usdelay 2 ;;
      setPinValue CK false ;;
      usdelay 2 ;;
      write_bits k' (Z.shiftr data 1)
  end.

(** [while( n-- )] over the data bytes of [writeTOY]. *)
Fixpoint write_bytes (k : nat) (data : list Z) : M unit :=
  match k with
  | O => ret tt
  | S k' =>
      write_bits 8 (u8 (hd 0 data)) ;;
      write_bytes k' (tl data)
  end.

(** [writeTOY( reg, ... )]: [count] is the length argument of a RAM burst
    (read only when [reg] is [TOY_RBURST]); [data] are the bytes, from the
    array when [TOY_GATHER] is set and from the argument list otherwise. *)
Definition writeTOY (reg : Z) (count : Z) (data : list Z) : M unit :=
  n <- (if u8 reg =? TOY_CBURST then ret TOY_CLK_REGS
        else if u8 reg =? TOY_RBURST then
          if (count <=? 0) || (count >? TOY_RAM_REGS) then
            eprint ("Internal error, " ++ dec_of_Z count ++ " RAM write") ;;
            exit EX_SOFTWARE
          else ret count
        else ret 1) ;;
  setPinValue CK false ;;
  setPinValue CE true ;;
  usdelay 4 ;;
  write_bits 8 reg ;;
  write_bytes (Z.to_nat n) data ;;
  setPinValue IO false ;;
  setPinValue CE false ;;
  usdelay 4.

(** The command loop of [readTOY]: the clock is left high after the last
    bit. *)
Fixpoint read_cmd_bits (k : nat) (i : Z) (reg : Z) : M unit :=
  match k with
  | O => ret tt
  | S k' =>
      setPinValue IO (bit0 reg) ;;
      usdelay 2 ;;
      setPinValue CK true ;;
      usdelay 2 ;;
      (if i <? 7 then setPinValue CK false ;; usdelay 2 else ret tt) ;;
      read_cmd_bits k' (i + 1) (Z.shiftr reg 1)
  end.

(** [*data >>= 1; if( pin ) *data |= 0x80;] *)
Definition shift_in (b : bool) (data : Z) : Z :=
  let data := Z.shiftr data 1 in
  if b then u8 (Z.lor data 0x80) else data.

(** One data byte of [readTOY]; [n] is the number of bytes still to come. *)
Fixpoint read_bits (k : nat) (i : Z) (n : Z) (data : Z) : M Z :=
  match k with
  | O => ret data
  | S k' =>
      setPinValue CK false ;;
      usdelay 2 ;;
      b <- readPinValue ;;
      let data := shift_in b data in
      (if (i <? 7) || negb (n =? 0)
       then setPinValue CK true ;; usdelay 2 else ret tt) ;;
      read_bits k' (i + 1) n data
  end.

(** [while( n-- )] over the data bytes of [readTOY]. *)
Fixpoint read_bytes (k : nat) (n : Z) : M (list Z) :=
  match k with
  | O => ret []
  | S k' =>
      b <- read_bits 8 0 (n - 1) 0 ;;
      rest <- read_bytes k' (n - 1) ;;
      ret (b :: rest)
  end.

(** [readTOY( reg, ... )]: returns the bytes read, wherever the caller
    has them stored ([TOY_SCATTER] or an array). *)
Definition readTOY (reg : Z) (count : Z) : M (list Z) :=
  n <- (if u8 reg =? TOY_CBURST then ret TOY_CLK_REGS
        else if u8 reg =? TOY_RBURST then
          if (count <=? 0) || (count >? TOY_RAM_REGS) then
            eprint ("Internal error, " ++ dec_of_Z count ++ " RAM read") ;;
            exit EX_SOFTWARE
          else ret count
        else ret 1) ;;
  let reg := Z.lor reg TOY_READ in
  setPinValue CK false ;;
  setPinValue CE true ;;
  usdelay 4 ;;
  read_cmd_bits 8 0 reg ;;
  setIO2input ;;
  usdelay 2 ;;
  data <- read_bytes (Z.to_nat n) n ;;
  setPinValue CE false ;;
  usdelay 2 ;;
  setIO2output ;;
  setPinValue IO false ;;
  ret data.

(** [%02x] of an [unsigned char]. *)
Definition hex_digit (d : Z) : ascii :=
  if d <? 10 then ascii_of_nat (48 + Z.to_nat d)
  else ascii_of_nat (87 + Z.to_nat d).

Definition hex2 (b : Z) : string :=
  String (hex_digit (b / 16 mod 16))
         (String (hex_digit (b mod 16)) EmptyString).

(** [unlockTOY]: clear WP and check that the chip answers. *)
Definition unlockTOY (cfg : config) : M unit :=
  let setval := if testmode cfg then TOY_M_WP else 0 in
  writeTOY TOY_CTL 0 [setval] ;;
  r <- readTOY (Z.lor TOY_CTL TOY_SCATTER) 0 ;;
  let ctl := hd 0 r in
  if negb (ctl =? setval) then
    eprint "No TOY detected" ;;
    (if debug cfg
     then eprint ("Wrote " ++ hex2 setval ++ " to CTL, read " ++ hex2 ctl)
     else ret tt) ;;
    exit EX_CONFIG
  else ret tt.

(** ** Calibration record *)

(** [struct calib]; the two [long double] fields are rationals.  As
    [readCalib] returns it, the record holds the decimal values of the text
    of the file; [ld_calib] is their conversion to [long double], the last
    step of [strtold], which the callers apply. *)
Record calib := mk_calib { lastset : Q; driftrate : Q; valid : bool }.

(** [memset( calib, 0, sizeof( *calib ) )] *)
Definition calib_zero : calib := mk_calib 0 0 false.

Definition Qlt_bool (x y : Q) : bool := negb (Qle_bool y x).

(** Conversion of a [long double] to an integer type: truncation toward
    zero. *)
Definition Qtrunc (q : Q) : Z := Z.quot (Qnum q) (Zpos (Qden q)).

(** Nearest integer, ties to even (how printf rounds a decimal digit). *)
Definition Qround_even (q : Q) : Z :=
  let f := Qfloor q in
  let r := (q - inject_Z f)%Q in
  if Qlt_bool r (1 # 2) then f
  else if Qlt_bool (1 # 2) r then f + 1
  else if Z.even f then f else f + 1.

(** ** [long double] *)

(** 2^s. *)
Definition Qpow2 (s : Z) : Q :=
  if 0 <=? s then inject_Z (2 ^ s) else 1 # Z.to_pos (2 ^ (- s)).

(** The binary exponent of a non-zero rational: 2^e <= |q| < 2^(e+1). *)
Definition Qilog2 (q : Q) : Z :=
  let k := Z.log2 (Z.abs (Qnum q)) - Z.log2 (Zpos (Qden q)) in
  if Qle_bool (Qpow2 k) (Qabs q) then k else k - 1.

(** Zero, or a magnitude that is a normal number in binary64, in the x87
    extended format and in binary128. *)
Definition ld_finite (q : Q) : bool :=
  Qeq_bool q 0
  || (Qle_bool (Qpow2 (-1000)) (Qabs q) && Qlt_bool (Qabs q) (Qpow2 1000)).

Section LongDouble.

(** The number of significant bits of [long double]. *)
Variable LDBL_MANT_DIG : Z.

(** Round to nearest, ties to even, [LDBL_MANT_DIG] significant bits. *)
Definition ld_round (q : Q) : Q :=
  if Qeq_bool q 0 then 0
  else
    let s := Qilog2 q - (LDBL_MANT_DIG - 1) in
    Qred (inject_Z (Qround_even (q * Qpow2 (- s))) * Qpow2 s).

(** The [long double] nearest to an exact result, when the model has it. *)
Definition fl (q : Q) : option Q :=
  if ld_finite q then Some (ld_round q) else None.

(** Conversion of an integer. *)
Definition ld_of_Z (z : Z) : option Q := fl (inject_Z z).

(** The four operations on [long double] operands.  A product or quotient
    that is a negative zero is outside the model; a sum or difference that
    is zero is a positive zero. *)
Definition ld_add (x y : Q) : option Q := fl (x + y).
Definition ld_sub (x y : Q) : option Q := fl (x - y).
Definition ld_mul (x y : Q) : option Q :=
  if (Qeq_bool x 0 && Qlt_bool y 0) || (Qeq_bool y 0 && Qlt_bool x 0)
  then None else fl (x * y).
Definition ld_div (x y : Q) : option Q :=
  if Qeq_bool y 0 then None
  else if Qeq_bool x 0 && Qlt_bool y 0 then None
  else fl (x / y).

(** The record of [readCalib] as the program holds it. *)
Definition ld_calib (c : calib) : option calib :=
  l ← fl (lastset c);
  r ← fl (driftrate c);
  Some (mk_calib l r (valid c)).

End LongDouble.

(** ** libc text functions *)

Definition is_space (c : ascii) : bool :=
  let n := Z.of_nat (nat_of_ascii c) in
  (n =? 32) || ((9 <=? n) && (n <=? 13)).

Definition is_digit (c : ascii) : bool :=
  let n := Z.of_nat (nat_of_ascii c) in (48 <=? n) && (n <=? 57).

Definition digit_val (c : ascii) : Z := Z.of_nat (nat_of_ascii c) - 48.

Fixpoint skip_spaces (s : string) : nat * string :=
  match s with
  | String c r => if is_space c then let '(n, r') := skip_spaces r in (S n, r')
                  else (O, s)
  | EmptyString => (O, s)
  end.

(** Leading decimal digits: their value on top of [acc], how many, the rest. *)
Fixpoint span_digits (s : string) (acc : Z) : Z * nat * string :=
  match s with
  | String c r =>
      if is_digit c then
        let '(v, n, r') := span_digits r (acc * 10 + digit_val c) in
        (v, S n, r')
      else (acc, O, s)
  | EmptyString => (acc, O, s)
  end.

Definition take_sign (s : string) : bool * nat * string :=
  match s with
  | String "-" r => (true, 1%nat, r)
  | String "+" r => (false, 1%nat, r)
  | _ => (false, O, s)
  end.

(** The result of [strtold]: the value, how far [ep] is from the start
    (0: no conversion), and whether [errno] was set. *)
Record strtold_result := mk_strtold { sv : Q; sn : nat; serr : bool }.

(** Lower case of an ASCII letter. *)
Definition to_lower (c : ascii) : ascii :=
  let n := nat_of_ascii c in
  if ((65 <=? n) && (n <=? 90))%nat then ascii_of_nat (n + 32) else c.

(** Does [s] start with [prefix], letter case apart? *)
Fixpoint starts_with_ci (prefix s : string) : bool :=
  match prefix, s with
  | EmptyString, _ => true
  | String p prefix', String c s' =>
      Ascii.eqb p (to_lower c) && starts_with_ci prefix' s'
  | String _ _, EmptyString => false
  end.

(** After white space and sign: the spellings of infinity, of a NaN and of
    a hexadecimal number, which libc converts and the model does not. *)
Definition other_spelling (s : string) : bool :=
  starts_with_ci "inf" s || starts_with_ci "nan" s || starts_with_ci "0x" s.

(** libc [strtold] in the C locale, decimal forms: white space, sign,
    digits with an optional point, optional exponent.  The value is the
    number the text spells; its rounding to [long double] is [fl], applied by
    the callers of [readCalib].  A positive number below half the smallest
    number of every format converts to zero with [errno] set to ERANGE.
    [None]: the text is outside the model, being one of the
    [other_spelling]s, a negative zero, or a number of any other magnitude
    that is not a normal number of every format. *)
Definition strtold (s : string) : option strtold_result :=
  let '(nws, s1) := skip_spaces s in
  let '(neg, nsg, s2) := take_sign s1 in
  if other_spelling s2 then None
  else
  let '(ip, ni, s3) := span_digits s2 0 in
  let '(fp, nf, ndot, s4) :=
    match s3 with
    | String "." r => let '(v, n, r') := span_digits r ip in (v, n, 1%nat, r')
    | _ => (ip, O, O, s3)
    end in
  if (ni + nf =? 0)%nat then Some (mk_strtold 0 0 false)
  else
    let '(ex, nex) :=
      match s4 with
      | String c r =>
          if (Ascii.eqb c "e" || Ascii.eqb c "E")%bool then
            let '(eneg, ensg, r1) := take_sign r in
            let '(ev, en, _) := span_digits r1 0 in
            if (en =? 0)%nat then (0, O)
            else (if eneg then - ev else ev, (1 + ensg + en)%nat)
          else (0, O)
      | EmptyString => (0, O)
      end in
    let mant := (inject_Z fp / inject_Z (10 ^ Z.of_nat nf))%Q in
    let v := (mant * Qpower (inject_Z 10) ex)%Q in
    let n := (nws + nsg + ni + ndot + nf + nex)%nat in
    if ld_finite v && negb (neg && Qeq_bool v 0) then
      Some (mk_strtold (Qred (if neg then - v else v)%Q) n false)
    else if negb neg && Qlt_bool 0 v && Qlt_bool v (Qpow2 (-16500)) then
      Some (mk_strtold 0 n true)
    else None.

(** The C string held by a buffer: the bytes before the first NUL. *)
Fixpoint cstr (s : string) : string :=
  match s with
  | String c r => if Ascii.eqb c "000" then EmptyString else String c (cstr r)
  | EmptyString => EmptyString
  end.

(** At most [k] bytes of the next line, newline included; the rest. *)
Fixpoint fgets_aux (k : nat) (s : string) : string * string :=
  match k with
  | O => (EmptyString, s)
  | S k' =>
      match s with
      | String c r =>
          if Ascii.eqb c "010" then (String c EmptyString, r)
          else let '(l, r') := fgets_aux k' r in (String c l, r')
      | EmptyString => (EmptyString, s)
      end
  end.

(** libc [fgets( line, size, f )] on the unread part of a file: [None] at
    end of file. *)
Definition fgets (size : nat) (unread : string) : option (string * string) :=
  match unread with
  | EmptyString => None
  | _ => Some (fgets_aux (size - 1) unread)
  end.

Definition NL : string := String "010" EmptyString.

Fixpoint zeros (k : nat) : string :=
  match k with O => EmptyString | S k' => String "0" (zeros k') end.

(** Right-justify in [width] columns with leading zeros ([%02d], [%03.0f]). *)
Definition zero_pad (width : nat) (s : string) : string :=
  (zeros (width - String.length s) ++ s)%string.

(** printf [%.<digits>Lf]. *)
Definition fmt_fixed (digits : nat) (q : Q) : string :=
  let scale := 10 ^ Z.of_nat digits in
  let n := Qround_even (Qabs q * inject_Z scale)%Q in
  ((if Qlt_bool q 0 then "-" else "")
   ++ dec_of_nonneg (n / scale)
   ++ (if (digits =? 0)%nat then ""
       else "." ++ zero_pad digits (dec_of_nonneg (n mod scale))))%string.

Definition wday_name (d : Z) : string :=
  nth (Z.to_nat d) ["Sun"; "Mon"; "Tue"; "Wed"; "Thu"; "Fri"; "Sat"]%string
      "?"%string.

Definition mon_name (m : Z) : string :=
  nth (Z.to_nat m)
      ["Jan"; "Feb"; "Mar"; "Apr"; "May"; "Jun";
       "Jul"; "Aug"; "Sep"; "Oct"; "Nov"; "Dec"]%string "?"%string.

(** strftime [%a %b %d %Y %H:%M:%S] in the C locale. *)
Definition strftime_date (t : tm) : string :=
  (wday_name (tm_wday t) ++ " " ++ mon_name (tm_mon t) ++ " "
   ++ zero_pad 2 (dec_of_Z (tm_mday t)) ++ " "
   ++ dec_of_Z (tm_year t + 1900) ++ " "
   ++ zero_pad 2 (dec_of_Z (tm_hour t)) ++ ":"
   ++ zero_pad 2 (dec_of_Z (tm_min t)) ++ ":"
   ++ zero_pad 2 (dec_of_Z (tm_sec t)))%string.

(** [formatTime( tm, has_nsec, nsec )] *)
Definition formatTime (t : tm) (has_nsec : Z) (nsec : Z) : string :=
  if has_nsec =? 0 then strftime_date t
  else if has_nsec <? 0 then (strftime_date t ++ "    ")%string
  else (strftime_date t ++ "."
        ++ zero_pad 3 (fmt_fixed 0 (inject_Z nsec / inject_Z 1000000)%Q)
       )%string.

(** The three lines [writeCalib] prints into the file. *)
Definition calib_text (c : calib) (t : tm) (nsec : Z) : string :=
  (fmt_fixed 9 (lastset c) ++ " (" ++ formatTime t 1 nsec ++ " UTC)" ++ NL
   ++ fmt_fixed 12 (driftrate c) ++ " ("
   ++ fmt_fixed 3 (driftrate c * inject_Z 1000000)%Q ++ " PPM)" ++ NL
   ++ "UTC" ++ NL)%string.

(** The PPM figure of the second line is [calib->driftrate * 1e6L], a
    [long double] product, where [calib_text] prints the exact product.  The
    model covers the record when the product as 53, 64 and 113 significant
    bits hold it prints the same three decimals. *)
Definition ppm_covered (c : calib) : bool :=
  forallb (fun p =>
             match ld_mul p (driftrate c) (inject_Z 1000000) with
             | Some ppm =>
                 String.eqb (fmt_fixed 3 ppm)
                            (fmt_fixed 3 (driftrate c * inject_Z 1000000)%Q)
             | None => false
             end)
          [53; 64; 113].

(** ** Files *)

(** [fopen( path, "r" )]: the file, or [None] (NULL) when it is missing or
    cannot be opened. *)
Definition fopen_r (path : string) : M (option file) :=
  fun e w =>
    (Ret (if fs_fault e (OpOpenR path) then None else w_fs w !! path), w).

(** [fopen( path, "w" )]: creates or truncates; [false] for NULL. *)
Definition fopen_w (path : string) : M bool :=
  fun e w =>
    if fs_fault e (OpOpenW path) then (Ret false, w)
    else
      let at_ := match w_fs w !! path with
                 | Some f => f_atime f
                 | None => fs_now e
                 end in
      (Ret true,
       mk_world (w_pins w) (w_nin w)
                (<[path := mk_file EmptyString at_ (fs_now e)]> (w_fs w))
                (w_nclk w) (w_err w) (w_systime w)).

(** Append [text] to an open file. *)
Definition append_file (path : string) (text : string) : M unit :=
  fun e w =>
    match w_fs w !! path with
    | Some f =>
        (Ret tt,
         mk_world (w_pins w) (w_nin w)
                  (<[path := mk_file (f_data f ++ text) (f_atime f) (fs_now e)]>
                     (w_fs w))
                  (w_nclk w) (w_err w) (w_systime w))
    | None => (Ret tt, w)
    end.

(** [fputc( c, f ) != EOF] for the byte at position [pos] of the copy. *)
Definition fputc (path : string) (pos : nat) (c : ascii) : M bool :=
  e <- get_env ;;
  if fs_fault e (OpPutc path pos) then ret false
  else append_file path (String c EmptyString) ;; ret true.

(** [fprintf( f, ... )]; the program ignores its result. *)
Definition fprintf (path : string) (text : string) : M unit :=
  e <- get_env ;;
  if fs_fault e (OpPrintf path) then ret tt else append_file path text.

(** [fclose( f ) == 0] *)
Definition fclose (path : string) : M bool :=
  e <- get_env ;; ret (negb (fs_fault e (OpClose path))).

(** [fstat( fileno( f ), &statbuf ) == 0], with the two times read. *)
Definition fstat (path : string) (f : file) : M (option (Z * Z)) :=
  e <- get_env ;;
  ret (if fs_fault e (OpFstat path) then None
       else Some (f_atime f, f_mtime f)).

(** [utime( path, &utbuf )]; the program ignores its result. *)
Definition utime (path : string) (actime modtime : Z) : M unit :=
  fun e w =>
    match w_fs w !! path with
    | Some f =>
        if fs_fault e (OpUtime path) then (Ret tt, w)
        else (Ret tt,
              mk_world (w_pins w) (w_nin w)
                       (<[path := mk_file (f_data f) actime modtime]> (w_fs w))
                       (w_nclk w) (w_err w) (w_systime w))
    | None => (Ret tt, w)
    end.

(** [rename( src, dst ) == 0] *)
Definition rename (src dst : string) : M bool :=
  fun e w =>
    match w_fs w !! src with
    | Some f =>
        if fs_fault e (OpRename src dst) then (Ret false, w)
        else (Ret true,
              mk_world (w_pins w) (w_nin w)
                       (<[dst := f]> (delete src (w_fs w)))
                       (w_nclk w) (w_err w) (w_systime w))
    | None => (Ret false, w)
    end.

(** [perror( s )] *)
Definition perror (s : string) : M unit := eprint s.

(** ** Calibration store *)

(** The test after each [strtold] in [readCalib]:
    [ep == line || errno != 0 || *ep++ != ' ' || *ep != '('] *)
Definition number_rejected (line : string) (r : strtold_result) : bool :=
  (sn r =? 0)%nat || serr r
  || negb (match String.get (sn r) line with
           | Some c => Ascii.eqb c " " | None => false end)
  || negb (match String.get (S (sn r)) line with
           | Some c => Ascii.eqb c "(" | None => false end).

(** The body of [readCalib] once the file is open: three [fgets], two
    [strtold], one [strcmp]; every [goto reterr] returns the record as far as
    it has been filled in.  [None] when a number read is outside the model
    of [strtold]. *)
Definition parse_calib (data : string) : option calib :=
  let calib := calib_zero in
  match fgets 100 data with
  | None => Some calib
  | Some (buf1, unread1) =>
      let line := cstr buf1 in
      r ← strtold line;
      let calib := mk_calib (sv r) (driftrate calib) (valid calib) in
      if number_rejected line r then Some calib
      else
        match fgets 100 unread1 with
        | None => Some calib
        | Some (buf2, unread2) =>
            let line := cstr buf2 in
            r ← strtold line;
            let calib := mk_calib (lastset calib) (sv r) (valid calib) in
            if number_rejected line r then Some calib
            else
              match fgets 100 unread2 with
              | None => Some calib
              | Some (buf3, _) =>
                  if negb (String.eqb (cstr buf3) ("UTC" ++ NL)) then Some calib
                  else Some (mk_calib (lastset calib) (driftrate calib) true)
              end
        end
  end.

(** [readCalib( &calib )] *)
Definition readCalib (cfg : config) : M calib :=
  match calibfilename cfg with
  | None => ret calib_zero
  | Some name =>
      cfile <- fopen_r name ;;
      match cfile with
      | None => perror name ;; ret calib_zero
      | Some f => lift (parse_calib (f_data f))
      end
  end.

(** The copy loop of [writeCalib]: [fgetc] from the old file, [fputc] to
    the backup; [false] when a [fputc] fails. *)
Fixpoint copy_bytes (bak : string) (data : string) (pos : nat) : M bool :=
  match data with
  | EmptyString => ret true
  | String c rest =>
      ok <- fputc bak pos c ;;
      if ok then copy_bytes bak rest (S pos) else ret false
  end.

(** [writeCalib( &calib, &ts )] *)
Definition writeCalib (cfg : config) (c : calib) (ts : timespec) : M unit :=
  match calibfilename cfg with
  | None => ret tt
  | Some name =>
      if negb (valid c) then ret tt
      else
        match gmtime_r (tv_sec ts) with
        | None => eprint "Can't convert to UTC, 2038?" ;; exit EX_OSERR
        | Some t =>
            cfile <- fopen_r name ;;
            (match cfile with
             | Some f =>
                 st <- fstat name f ;;
                 match st with
                 | None => perror name ;; exit EX_OSERR
                 | Some (actime, modtime) =>
                     let bak := (name ++ ".bak")%string in
                     opened <- fopen_w bak ;;
                     if negb opened then perror bak ;; exit EX_IOERR
                     else
                       copied <- copy_bytes bak (f_data f) 0 ;;
                       if negb copied then perror bak ;; exit EX_IOERR
                       else
                         closed <- fclose bak ;;
                         if negb closed then perror bak ;; exit EX_IOERR
                         else
                           utime bak actime modtime ;;
                           if debug cfg
                           then eprint ("Previous calibration saved in " ++ bak)
                           else ret tt
                 end
             | None => ret tt
             end) ;;
            let tmp := (name ++ ".tmp")%string in
            opened <- fopen_w tmp ;;
            if negb opened then perror tmp
            else
              (if ppm_covered c then ret tt else undef) ;;
              fprintf tmp (calib_text c t (tv_nsec ts)) ;;
              closed <- fclose tmp ;;
              if negb closed then perror tmp
              else
                renamed <- rename tmp name ;;
                if renamed then
                  if debug cfg
                  then eprint ("Calibration data written in " ++ name)
                  else ret tt
                else perror name
        end
  end.

(** ** Calibration engine *)

Definition EX_NOPERM : Z := 77.

(** A [struct timespec] as an exact number of seconds: the time stamp of
    the specification, before any rounding. *)
Definition ts_seconds (ts : timespec) : Q :=
  (inject_Z (tv_sec ts) + inject_Z (tv_nsec ts) / inject_Z 1000000000)%Q.

(** [settimeofday( &settime, &tz )]: the errno class on failure. *)
Definition settimeofday (t : Z) : M (option bool) :=
  fun e w =>
    match settime_errno e with
    | None => (Ret None, mk_world (w_pins w) (w_nin w) (w_fs w) (w_nclk w)
                                  (w_err w) (Some t))
    | Some eperm => (Ret (Some eperm), w)
    end.

Section Engine.

Variable LDBL_MANT_DIG : Z.
Variable ULONG_BITS : Z.
Variable TIME_BITS : Z.
Variable cfg : config.

(** [((long double) ts.tv_sec) + (((long double) ts.tv_nsec) / 1e9L)] *)
Definition ts_ld (ts : timespec) : option Q :=
  s ← ld_of_Z LDBL_MANT_DIG (tv_sec ts);
  n ← ld_of_Z LDBL_MANT_DIG (tv_nsec ts);
  f ← ld_div LDBL_MANT_DIG n (inject_Z 1000000000);
  ld_add LDBL_MANT_DIG s f.

(** Conversion of a [long double] to [time_t] and to [unsigned long]:
    the fraction is discarded; undefined when the result does not fit. *)
Definition to_time_t (q : Q) : option Z :=
  let z := Qtrunc q in
  if time_t_ok TIME_BITS z then Some z else None.

Definition to_ulong (q : Q) : option Z :=
  let z := Qtrunc q in
  if (0 <=? z) && (z <? 2 ^ ULONG_BITS) then Some z else None.

(** [calrundays * 24 * 60 * 60], the product taken in [unsigned long]. *)
Definition calrun_seconds : Z :=
  ulong ULONG_BITS (calrundays cfg * 24 * 60 * 60).

(** Drift correction of [readUpdate]: stretch the time elapsed since the
    clock was set by the drift rate, adding 0.5 before the conversion to
    [time_t].  The record is the one the program holds ([ld_calib]). *)
Definition apply_drift (c : calib) (toytime : Z) : option Z :=
  if valid c then
    let correction := driftrate c in
    if negb (Qeq_bool correction 0) then
      t ← ld_of_Z LDBL_MANT_DIG toytime;
      elapsed ← ld_sub LDBL_MANT_DIG t (lastset c);
      if Qlt_bool correction 0 then
        a ← ld_add LDBL_MANT_DIG 1 (Qabs correction);
        b ← ld_mul LDBL_MANT_DIG elapsed a;
        s ← ld_add LDBL_MANT_DIG (lastset c) b;
        r ← ld_add LDBL_MANT_DIG s (1 # 2);
        to_time_t r
      else
        a ← ld_add LDBL_MANT_DIG 1 correction;
        b ← ld_div LDBL_MANT_DIG elapsed a;
        s ← ld_add LDBL_MANT_DIG (lastset c) b;
        r ← ld_add LDBL_MANT_DIG s (1 # 2);
        to_time_t r
    else Some toytime
  else Some toytime.

(** [decodeTOY( clkregs )] *)
Definition decodeTOY (regs : clkregs) : M Z :=
  let newtime := decodeTOY_tm regs in
  (if debug cfg && (Z.land (reg_get regs TOY_CTL) TOY_M_WP =? 0)
   then eprint "WP is not set" else ret tt) ;;
  let toytime := timegm TIME_BITS newtime in
  if toytime =? -1 then
    eprint "Failed to convert TOY to UTC, 2038 issue?" ;;
    exit EX_OSERR
  else ret toytime.

Definition toy_seconds (regs : clkregs) : Z :=
  BIN (Z.land (reg_get regs TOY_SEC) TOY_M_SEC).

(** The read loop shared by [setTOY] and [readUpdate]:
    [do { firstsec = ...; readTOY; if( firstsec != ... ) break; readTOY; }
     while( count++ < TOY_MAX_READS );]
    It returns the registers last read and the final counter.  [fuel] bounds
    the iterations the model is willing to run. *)
Fixpoint stabilize (fuel : nat) (count : Z) (regs : clkregs)
  : M (clkregs * Z) :=
  match fuel with
  | O => fun _ w => (Hang, w)
  | S fuel' =>
      let firstsec := u8 (toy_seconds regs) in
      regs <- readTOY TOY_CBURST 0 ;;
      if negb (firstsec =? toy_seconds regs) then ret (regs, count)
      else
        regs <- readTOY TOY_CBURST 0 ;;
        if count <? TOY_MAX_READS then stabilize fuel' (count + 1) regs
        else ret (regs, count + 1)
  end.

(** [newt > (calib.lastset + (calrundays * 24 * 60 * 60))], the test of
    "Update calibration if running for at least calrundays". *)
Definition refit_due (cal : calib) (newt : Z) : option bool :=
  n ← ld_of_Z LDBL_MANT_DIG newt;
  thr ← ld_of_Z LDBL_MANT_DIG calrun_seconds;
  s ← ld_add LDBL_MANT_DIG (lastset cal) thr;
  Some (Qlt_bool s n).

(** "Compute drift rate from last clock set to now":
    [end = ...; error = ((long double) toytime) - end;
     calib.driftrate = error / ( end - calib.lastset );] *)
Definition drift_fit (cal : calib) (toytime : Z) (etime : timespec)
  : option Q :=
  end_ ← ts_ld etime;
  t ← ld_of_Z LDBL_MANT_DIG toytime;
  error ← ld_sub LDBL_MANT_DIG t end_;
  d ← ld_sub LDBL_MANT_DIG end_ (lastset cal);
  ld_div LDBL_MANT_DIG error d.

(** The calibration update of [setTOY] ("Update calibration if running
    for at least calrundays"): the record with the refitted rate, or as it
    was. *)
Definition fit_drift (fuel : nat) (cal : calib) (newt : Z) : M calib :=
  due <- lift (if valid cal then refit_due cal newt else Some false) ;;
  if due then
    regs <- readTOY TOY_CBURST 0 ;;
    if negb (Z.land (reg_get regs TOY_MON) TOY_M_MON_MBZ =? 0) then
      eprint "No TOY detected" ;;
      exit EX_CONFIG
    else if Z.land (reg_get regs TOY_SEC) TOY_M_HALT =? 0 then
      r <- stabilize fuel 0 regs ;;
      let '(regs, try) := r in
      et <- clock_gettime ;;
      match et with
      | None => perror "gettime" ;; exit EX_OSERR
      | Some etime =>
          if try <? TOY_MAX_READS then
            toytime <- decodeTOY regs ;;
            rate <- lift (drift_fit cal toytime etime) ;;
            ret (mk_calib (lastset cal) rate (valid cal))
          else ret cal
      end
    else ret cal
  else ret cal.

(** [newt += calib.lastset - start] *)
Definition adjust_newt (newt : Z) (lastset' start : Q) : option Z :=
  d ← ld_sub LDBL_MANT_DIG lastset' start;
  n ← ld_of_Z LDBL_MANT_DIG newt;
  s ← ld_add LDBL_MANT_DIG n d;
  to_time_t s.

(** [setTOY( newtime )]; returns the calibration record it hands to
    [writeCalib]. *)
Definition setTOY (fuel : nat) (newtime : tm) : M calib :=
  st <- clock_gettime ;;
  match st with
  | None => perror "gettime" ;; exit EX_OSERR
  | Some stime =>
      start <- lift (ts_ld stime) ;;
      let newt := timegm TIME_BITS newtime in
      calib <- readCalib cfg ;;
      calib <- lift (ld_calib LDBL_MANT_DIG calib) ;;
      (if valid calib && negb (force cfg) then
         s <- lift (ld_of_Z LDBL_MANT_DIG (tv_sec stime)) ;;
         elapsed <- lift (ld_sub LDBL_MANT_DIG s (lastset calib)) ;;
         thr <- lift (ld_of_Z LDBL_MANT_DIG calrun_seconds) ;;
         if Qlt_bool elapsed thr then
           days <- lift (d ← ld_div LDBL_MANT_DIG elapsed (inject_Z 86400);
                         to_ulong d) ;;
           eprint ("Calibration must run at least "
                   ++ dec_of_Z (calrundays cfg) ++ " days, currently "
                   ++ dec_of_Z days) ;;
           exit EX_UNAVAILABLE
         else ret tt
       else ret tt) ;;
      calib <- fit_drift fuel calib newt ;;
      et <- clock_gettime ;;
      match et with
      | None => perror "gettime" ;; exit EX_OSERR
      | Some etime =>
          lastset' <- lift (ts_ld etime) ;;
          let calib := mk_calib lastset' (driftrate calib) (valid calib) in
          newt <- lift (adjust_newt newt (lastset calib) start) ;;
          match gmtime_r newt with
          | None => eprint "Can't convert to UTC, 2038?" ;; exit EX_OSERR
          | Some newtime =>
              let regs := encode_clkregs (hour12 cfg) newtime in
              unlockTOY cfg ;;
              writeTOY (Z.lor TOY_CBURST TOY_GATHER) 0 regs ;;
              let calib := mk_calib (lastset calib) (driftrate calib) true in
              writeCalib cfg calib etime ;;
              ret calib
          end
      end
  end.

(** [localtime] returns NULL when the year of the local time does not fit
    [int], and the program uses the result unchecked.  The time zone is not
    modelled: the call is taken to succeed when the year fits two days
    either side of [t]. *)
Definition localtime_ok (t : Z) : bool :=
  match gmtime_r (t - 172800), gmtime_r (t + 172800) with
  | Some _, Some _ => true
  | _, _ => false
  end.

(** [readUpdate( function )]; returns the time it reports (and, for
    [F_UPDATE], sets the system clock to).  The record of [readCalib] is
    first used after the clock was read and decoded. *)
Definition readUpdate (fuel : nat) (function : Z) : M Z :=
  loaded <- attempt (readCalib cfg) ;;
  regs <- readTOY TOY_CBURST 0 ;;
  if negb (Z.land (reg_get regs TOY_MON) TOY_M_MON_MBZ =? 0) then
    eprint "No TOY detected" ;;
    exit EX_CONFIG
  else if negb (Z.land (reg_get regs TOY_SEC) TOY_M_HALT =? 0) then
    eprint "TOY is halted, time is not valid" ;;
    exit EX_UNAVAILABLE
  else
    r <- stabilize fuel 0 regs ;;
    let '(regs, toytime) := r in
    systime <- clock_gettime ;;
    if toytime >=? TOY_MAX_READS then
      eprint "TOY does not seem to be running" ;;
      exit EX_IOERR
    else
      toytime <- decodeTOY regs ;;
      calib <- lift loaded ;;
      calib <- lift (ld_calib LDBL_MANT_DIG calib) ;;
      toytime <- lift (apply_drift calib toytime) ;;
      systime <-
        (if function =? F_UPDATE then
           if testmode cfg then ret systime
           else
             r <- settimeofday toytime ;;
             match r with
             | Some eperm =>
                 perror "settimeofday failed" ;;
                 exit (if eperm then EX_NOPERM else EX_OSERR)
             | None => clock_gettime
             end
         else ret systime) ;;
      if (function =? F_READ) || negb (quiet cfg) then
        (if localtime_ok toytime then ret tt else undef) ;;
        match systime with
        | None => perror "gettime" ;; exit EX_OSERR
        | Some st =>
            (if localtime_ok (tv_sec st) then ret tt else undef) ;;
            ret toytime
        end
      else ret toytime.

End Engine.

(** The corrected time as the specification words it, before rounding:
    with [elapsed = chipTime - lastSetEpoch], a slow chip (negative rate)
    has [lastSetEpoch + elapsed * (1 + |driftRate|)], a fast one
    [lastSetEpoch + elapsed / (1 + driftRate)]. *)
Definition corrected_exact (c : calib) (chipTime : Z) : Q :=
  let elapsed := (inject_Z chipTime - lastset c)%Q in
  if Qlt_bool (driftrate c) 0
  then (lastset c + elapsed * (1 + Qabs (driftrate c)))%Q
  else (lastset c + elapsed / (1 + driftrate c))%Q.

(** The calibration file of the README. *)
Definition readme_calib : calib :=
  mk_calib (1600806806087274313 # 1000000000)
           (-28974891 # 1000000000000) true.

(** ** What a read returns, in terms of the IO pin's levels *)

(** The byte assembled from [k] samples starting at sample [start]. *)
Fixpoint fold_bits (e : env) (start : nat) (k : nat) (data : Z) : Z :=
  match k with
  | O => data
  | S k' => fold_bits e (S start) k' (shift_in (io_level e start) data)
  end.

Definition byte_at (e : env) (start : nat) : Z := fold_bits e start 8 0.

Fixpoint bytes_at (e : env) (start : nat) (k : nat) : list Z :=
  match k with
  | O => []
  | S k' => byte_at e start :: bytes_at e (8 + start) k'
  end.

(** The clock registers a burst read returns when it starts at sample
    [start]. *)
Definition sample_at (e : env) (start : nat) : clkregs := bytes_at e start 8.

(** [w'] is [w] after bus traffic that took [k] samples of the IO pin:
    new events in front of the old ones, nothing else touched. *)
Definition bus_frame (w w' : world) (k : nat) : Prop :=
  (exists evs, w_pins w' = evs ++ w_pins w)
  /\ w_nin w' = (k + w_nin w)%nat
  /\ w_fs w' = w_fs w /\ w_nclk w' = w_nclk w
  /\ w_err w' = w_err w /\ w_systime w' = w_systime w.

(** ** Simulated chips *)

Definition bits_of_byte (b : Z) : list bool :=
  map (fun i => Z.testbit b (Z.of_nat i)) (seq 0 8).

(** An IO pin that plays back the given bytes, LSB first, then stays low. *)
Definition io_of_bytes (l : list Z) : nat -> bool :=
  fun k => nth k (flat_map bits_of_byte l) false.

(** A chip that is present and running at sample [n0] but whose decoded
    seconds are the same on every later burst read. *)
Definition stuck_chip (e : env) (n0 : nat) : Prop :=
  Z.land (reg_get (sample_at e n0) TOY_MON) TOY_M_MON_MBZ = 0
  /\ Z.land (reg_get (sample_at e n0) TOY_SEC) TOY_M_HALT = 0
  /\ forall j : nat,
       toy_seconds (sample_at e (64 * j + n0))
       = toy_seconds (sample_at e n0).

(** ** Worlds of the examples *)

Definition calib_path : string := "/etc/rtc-ctl.dat".

(** The README's calibration file, and the same file with its third line
    damaged. *)
Definition readme_file : file :=
  mk_file (calib_text readme_calib (mk_tm 26 33 20 22 8 120 2 265 0) 87274313)
          1600806806 1600806806.

Definition damaged_file : file :=
  mk_file ("1600806806.087274313 (Tue Sep 22 2020 20:33:26.087 UTC)" ++ NL
           ++ "-0.000028974891 (-28.975 PPM)" ++ NL
           ++ "GMT" ++ NL)%string
          1600806806 1600806806.

Definition world_with (f : file) : world :=
  mk_world [] 0 (<[calib_path := f]> ∅) 0 [] None.

Definition default_config : config :=
  mk_config false false false (Some calib_path) false false 12.

(** No faults, the IO pin playing back [bytes], the host clock reading
    [t0 + k] seconds at its k-th call. *)
Definition quiet_env (bytes : list Z) (t0 : Z) : env :=
  mk_env (io_of_bytes bytes)
         (fun k => Some (mk_timespec (t0 + Z.of_nat k) 0))
         (fun _ => false) t0 None.

(** The environment of [quiet_env] with one failing file operation. *)
Definition fsop_eqb (a b : fsop) : bool :=
  match a, b with
  | OpOpenR p, OpOpenR q | OpFstat p, OpFstat q | OpOpenW p, OpOpenW q
  | OpPrintf p, OpPrintf q | OpClose p, OpClose q | OpUtime p, OpUtime q =>
      String.eqb p q
  | OpPutc p i, OpPutc q j => String.eqb p q && Nat.eqb i j
  | OpRename p1 p2, OpRename q1 q2 => String.eqb p1 q1 && String.eqb p2 q2
  | _, _ => false
  end.

Definition faulty_env (bad : fsop) (t0 : Z) : env :=
  mk_env (io_of_bytes [])
         (fun k => Some (mk_timespec (t0 + Z.of_nat k) 0))
         (fsop_eqb bad) t0 None.

(** A record fitted on 2023-01-15, to be stored over the README's. *)
Definition new_calib : calib :=
  mk_calib (1673778895 # 1) (-29840891 # 1000000000000) true.

Definition new_ts : timespec := mk_timespec 1673778895 0.

(** ** The drift fit, as specified and as observed *)

(** The k-th burst read of a run of burst reads that starts at sample
    [n0]. *)
Definition burst (e : env) (n0 : nat) (k : nat) : clkregs :=
  sample_at e (64 * k + n0).

(** Burst 0 is the read before the loop; pass [p] of the loop compares
    burst [2p] with burst [2p+1] and, when they agree, reads burst [2p+2].
    The seconds first change on pass [j]. *)
Definition seconds_change_at (e : env) (n0 : nat) (j : nat) : Prop :=
  (forall p : nat, (p < j)%nat ->
     toy_seconds (burst e n0 (2 * p + 1)) = toy_seconds (burst e n0 (2 * p)))
  /\ toy_seconds (burst e n0 (2 * j + 1)) <> toy_seconds (burst e n0 (2 * j)).

(** The rate as the specification words it:
    [(reportedTime - hostTimestamp) / (hostTimestamp - priorLastSetEpoch)]. *)
Definition fit_as_specified (prior : calib) (reportedTime : Z)
    (hostTimestamp : Q) : Q :=
  ((inject_Z reportedTime - hostTimestamp)
   / (hostTimestamp - lastset prior))%Q.

(** The same quotient in [long double], as the program can form it: the
    host time stamp converted from its seconds and nanoseconds, the two
    differences and the quotient each rounded. *)
Definition fit_as_specified_ld (LDBL_MANT_DIG : Z) (prior : calib)
    (reportedTime : Z) (hostTimestamp : timespec) : option Q :=
  host ← ts_ld LDBL_MANT_DIG hostTimestamp;
  reported ← ld_of_Z LDBL_MANT_DIG reportedTime;
  num ← ld_sub LDBL_MANT_DIG reported host;
  den ← ld_sub LDBL_MANT_DIG host (lastset prior);
  ld_div LDBL_MANT_DIG num den.

(** The requested time is later than the prior set time plus the minimum
    run: the minimum is the configured number of days in seconds as
    [unsigned long] holds it, the sum and the comparison are in
    [long double]. *)
Definition past_minimum_run (LDBL_MANT_DIG ULONG_BITS : Z) (cfg : config)
    (prior : calib) (requested : Z) : option bool :=
  minimum ← ld_of_Z LDBL_MANT_DIG (ulong ULONG_BITS (calrundays cfg * 86400));
  earliest ← ld_add LDBL_MANT_DIG (lastset prior) minimum;
  req ← ld_of_Z LDBL_MANT_DIG requested;
  Some (Qlt_bool earliest req).

(** The README's registers with the given seconds byte. *)
Definition readme_regs (sec : Z) : clkregs :=
  [sec; 0x00; 0x10; 0x15; 0x01; 0x01; 0x23; 0x80].

(** 2023-01-15 10:34:55 UTC, the host time of the README's run, as the
    [struct tm] handed to [setTOY]. *)
Definition readme_now : Z := 1673778895.
Definition readme_newtime : tm := mk_tm 55 34 10 15 0 123 0 14 0.

(** A running chip whose seconds go from 44 to 45 between the first two
    burst reads, and the same chip halted (CH set in the seconds byte). *)
Definition running_chip : list Z := readme_regs 0x44 ++ readme_regs 0x45.
Definition halted_chip : list Z := readme_regs 0xC5.

(** ** Worlds of the counterexamples *)

(** A record said to be set in 2235 with a rate of a quarter of a second per
    second.  Against the README's registers every value of the correction is
    a multiple of 1/4 below 2^34, which every format holds exactly. *)
Definition quarter_calib : calib := mk_calib 8368884238 (-1 # 4) true.

Definition quarter_file : file :=
  mk_file ("8368884238.000000000 (Sun Mar 15 2235 02:03:58.000 UTC)" ++ NL
           ++ "-0.250000000000 (-250000.000 PPM)" ++ NL
           ++ "UTC" ++ NL)%string
          1600806806 1600806806.

(** The day after the README's record was stored: host time 2020-09-23
    20:33:26 UTC, the chip going from 20:33:25 to 20:33:26. *)
Definition next_day_now : Z := 1600893206.
Definition next_day_newtime : tm := mk_tm 26 33 20 23 8 120 3 266 0.

Definition next_day_regs (sec : Z) : clkregs :=
  [sec; 0x33; 0x20; 0x23; 0x09; 0x04; 0x20; 0x80].

Definition next_day_chip : list Z := next_day_regs 0x25 ++ next_day_regs 0x26.

(** The default configuration with [--caldays days]. *)
Definition caldays_config (days : Z) : config :=
  mk_config false false false (Some calib_path) false false days.

(** ** Outcomes *)

(** A computation returns, ends the process with one of [codes], or leaves
    what the model covers; it does not run out of fuel. *)
Definition ends_within {A} (codes : list Z) (c : M A) : Prop :=
  forall (e : env) (w : world) (r : result A) (w' : world),
    c e w = (r, w') ->
    match r with
    | Ret _ => True
    | Exit code => In code codes
    | Hang => False
    | Undef => True
    end.

(* ================================================================== *)
(** * Properties *)

Example TOY_CLK_REGS_is_8 : TOY_CLK_REGS = 8.
Proof. reflexivity. Qed.

Example TOY_RAM_REGS_is_31 : TOY_RAM_REGS = 31.
Proof. reflexivity. Qed.

(** The register dump of the README: 2023-01-15 10:00:45 UTC. *)
Example decode_readme_registers :
  let regs := [0x45; 0x00; 0x10; 0x15; 0x01; 0x01; 0x23; 0x80] in
  timegm 32 (decodeTOY_tm regs) = 1673776845
  /\ gmtime_r 1673776845 =
     Some (mk_tm 45 0 10 15 0 123 0 14 0).
Proof. split; reflexivity. Qed.

(** ** Checking a property on every value of a finite range *)

Lemma Zrange_forallb (P : Z -> bool) (n : nat) :
  forallb P (Zrange n) = true ->
  forall z, 0 <= z < Z.of_nat n -> P z = true.
Proof.
  intros Hall z Hz.
  rewrite forallb_forall in Hall.
  apply Hall. unfold Zrange.
  rewrite <- (Z2Nat.id z) by lia.
  apply in_map, in_seq. lia.
Qed.

(** ** BCD conversions *)

(** C7: converting any n in 0..99 to packed BCD and back yields n. *)
Theorem BIN_BCD_roundtrip (n : Z) :
  0 <= n <= 99 -> BIN (BCD n) = n.
Proof.
  intros Hn.
  apply Z.eqb_eq.
  apply (Zrange_forallb (fun k => BIN (BCD k) =? k) 100); [ | lia ].
  vm_compute. reflexivity.
Qed.

Lemma BIN_BCD_roundtrip_witness : 0 <= 59 <= 99 /\ BIN (BCD 59) = 59.
Proof. split; [ lia | apply (BIN_BCD_roundtrip 59); lia ]. Defined.

(** The packed form is the two decimal digits in the two nibbles. *)
Lemma BCD_digits (n : Z) :
  0 <= n <= 99 -> BCD n = 16 * (n / 10) + n mod 10.
Proof.
  intros Hn.
  apply Z.eqb_eq.
  apply (Zrange_forallb (fun k => BCD k =? 16 * (k / 10) + k mod 10) 100);
    [ | lia ].
  vm_compute. reflexivity.
Qed.

(** ** Hour codec *)

Lemma encode_clkregs_hr (hour12 : bool) (t : tm) :
  reg_get (encode_clkregs hour12 t) TOY_HR = encode_hour hour12 (tm_hour t).
Proof. reflexivity. Qed.

Lemma decodeTOY_tm_hour (regs : clkregs) :
  tm_hour (decodeTOY_tm regs) = decode_hour (reg_get regs TOY_HR).
Proof. reflexivity. Qed.

(** The round-trip facts of one hour register, as a decidable check. *)
Definition hour_roundtrip_check (hr : Z) : bool :=
  implb (valid_hr12 hr || valid_hr24 hr)
    (let h := decode_hour hr in
     (0 <=? h) && (h <=? 23)
     && (decode_hour (encode_hour true h) =? h)
     && (decode_hour (encode_hour false h) =? h)
     && implb (valid_hr12 hr) (encode_hour true h =? hr)
     && implb (valid_hr24 hr) (encode_hour false h =? hr)).

Lemma hour_roundtrip_check_all (hr : Z) :
  0 <= hr < 256 -> hour_roundtrip_check hr = true.
Proof.
  intros Hr.
  apply (Zrange_forallb hour_roundtrip_check 256); [ | lia ].
  vm_compute. reflexivity.
Qed.

Lemma valid_hr_range (hr : Z) :
  valid_hr12 hr || valid_hr24 hr = true -> 0 <= hr < 256.
Proof.
  unfold valid_hr12, valid_hr24. intros H.
  apply orb_true_iff in H.
  destruct H as [H | H];
    repeat (apply andb_true_iff in H; destruct H as [H ?]); lia.
Qed.

(** C8: for a valid hour register, decoding gives an hour of the day in
    0..23 that both encodings decode back to; re-encoding a 12-hour sample in
    12-hour mode reproduces the register bit for bit (hour digits and AM/PM),
    and so does re-encoding a 24-hour sample in 24-hour mode. *)
Theorem hour_decode_encode_roundtrip (regs : clkregs) :
  let hr := reg_get regs TOY_HR in
  let t := decodeTOY_tm regs in
  valid_hr12 hr || valid_hr24 hr = true ->
  0 <= tm_hour t <= 23
  /\ decode_hour (reg_get (encode_clkregs true t) TOY_HR) = tm_hour t
  /\ decode_hour (reg_get (encode_clkregs false t) TOY_HR) = tm_hour t
  /\ (valid_hr12 hr = true -> reg_get (encode_clkregs true t) TOY_HR = hr)
  /\ (valid_hr24 hr = true -> reg_get (encode_clkregs false t) TOY_HR = hr).
Proof.
  intros hr t Hvalid.
  rewrite !encode_clkregs_hr. unfold t. rewrite decodeTOY_tm_hour.
  fold hr.
  pose proof (hour_roundtrip_check_all hr (valid_hr_range hr Hvalid)) as Hc.
  unfold hour_roundtrip_check in Hc. rewrite Hvalid in Hc.
  cbn [implb] in Hc.
  repeat (apply andb_true_iff in Hc; destruct Hc as [Hc ?]).
  repeat split; try lia.
  - intros H12. rewrite H12 in *. cbn [implb] in *. lia.
  - intros H24. rewrite H24 in *. cbn [implb] in *. lia.
Qed.

Lemma hour_decode_encode_roundtrip_witness :
  let regs := [0x45; 0x00; 0xB1; 0x15; 0x01; 0x01; 0x23; 0x80] in
  valid_hr12 (reg_get regs TOY_HR) || valid_hr24 (reg_get regs TOY_HR) = true
  /\ tm_hour (decodeTOY_tm regs) = 23
  /\ reg_get (encode_clkregs true (decodeTOY_tm regs)) TOY_HR = 0xB1.
Proof.
  intros regs.
  destruct (hour_decode_encode_roundtrip regs eq_refl) as (_ & _ & _ & H12 & _).
  split; [ reflexivity | split; [ reflexivity | exact (H12 eq_refl) ] ].
Defined.

(** The twelve o'clock cases: 12 AM is hour 0, 12 PM is hour 12. *)
Example decode_hour_noon_midnight :
  decode_hour 0x92 = 0 /\ decode_hour 0xB2 = 12
  /\ encode_hour true 0 = 0x92 /\ encode_hour true 12 = 0xB2
  /\ encode_hour true 13 = 0xA1 /\ encode_hour true 11 = 0x91.
Proof. repeat split; reflexivity. Qed.

(** ** Bit transport: burst lengths *)

(** The part of the world that is hardware or persistent: everything but
    stderr. *)
Definition same_outside (w w' : world) : Prop :=
  w_pins w' = w_pins w /\ w_nin w' = w_nin w
  /\ w_fs w' = w_fs w /\ w_nclk w' = w_nclk w
  /\ w_systime w' = w_systime w.

Lemma bad_count_test (count : Z) :
  count < 1 \/ count > TOY_RAM_REGS ->
  (count <=? 0) || (count >? TOY_RAM_REGS) = true.
Proof.
  intros [H | H]; apply orb_true_iff; [ left | right ]; lia.
Qed.

(** C9: a RAM burst, write or read, with a length outside 1..31 exits with
    EX_SOFTWARE having logged nothing on the bus: no pin set, no delay, no
    sample taken; only the message on stderr is new. *)
Theorem ram_burst_bad_length_rejected
    (reg count : Z) (data : list Z) (e : env) (w : world) :
  u8 reg = TOY_RBURST ->
  count < 1 \/ count > TOY_RAM_REGS ->
  (exists w', writeTOY reg count data e w = (Exit EX_SOFTWARE, w')
              /\ same_outside w w')
  /\ (exists w', readTOY reg count e w = (Exit EX_SOFTWARE, w')
                 /\ same_outside w w').
Proof.
  intros Hreg Hcount.
  apply bad_count_test in Hcount.
  unfold writeTOY, readTOY, bind. rewrite Hreg, Hcount.
  change (TOY_RBURST =? TOY_CBURST) with false.
  change (TOY_RBURST =? TOY_RBURST) with true.
  cbv beta iota.
  split; eexists; (split; [ reflexivity | repeat split ]).
Qed.

Lemma ram_burst_bad_length_rejected_witness :
  let w := mk_world [] 0 ∅ 0 [] None in
  let e := mk_env (fun _ => false) (fun _ => None) (fun _ => false) 0 None in
  (u8 (Z.lor TOY_RBURST TOY_GATHER) = TOY_RBURST /\ 32 > TOY_RAM_REGS)
  /\ exists w',
       writeTOY (Z.lor TOY_RBURST TOY_GATHER) 32 (repeat 0 32) e w
       = (Exit EX_SOFTWARE, w') /\ same_outside w w'.
Proof.
  intros w e. change TOY_RAM_REGS with 31.
  split; [ split; [ reflexivity | lia ] | ].
  apply (ram_burst_bad_length_rejected
           (Z.lor TOY_RBURST TOY_GATHER) 32 (repeat 0 32) e w).
  - reflexivity.
  - right. change TOY_RAM_REGS with 31. lia.
Defined.

Example readTOY_zero_length :
  readTOY TOY_RBURST 0 (quiet_env [] 0) (mk_world [] 0 ∅ 0 [] None)
  = (Exit EX_SOFTWARE,
     mk_world [] 0 ∅ 0 ["Internal error, 0 RAM read"%string] None).
Proof. reflexivity. Qed.

(** ** Running the bit transport *)

Lemma bus_frame_refl (w : world) : bus_frame w w 0.
Proof. repeat split. exists []. reflexivity. Qed.

Lemma bus_frame_trans (w1 w2 w3 : world) (k1 k2 : nat) :
  bus_frame w1 w2 k1 -> bus_frame w2 w3 k2 -> bus_frame w1 w3 (k2 + k1).
Proof.
  intros ([ev1 P1] & N1 & F1 & C1 & E1 & S1).
  intros ([ev2 P2] & N2 & F2 & C2 & E2 & S2).
  repeat split; try congruence.
  - exists (ev2 ++ ev1). rewrite P2, P1. apply app_assoc.
  - rewrite N2, N1. lia.
Qed.

Lemma bus_frame_event (w : world) (ev : pin_event) :
  bus_frame w (mk_world (ev :: w_pins w) (w_nin w) (w_fs w) (w_nclk w)
                        (w_err w) (w_systime w)) 0.
Proof. repeat split. exists [ev]. reflexivity. Qed.

(** A computation that only drives the bus: it returns [v] after [k]
    samples. *)
Definition bus_run {A} (c : M A) (e : env) (w : world) (v : A) (k : nat)
  : Prop :=
  exists w', c e w = (Ret v, w') /\ bus_frame w w' k.

Lemma bus_run_ret {A} (v : A) (e : env) (w : world) : bus_run (ret v) e w v 0.
Proof. exists w. split; [ reflexivity | apply bus_frame_refl ]. Qed.

Lemma bus_run_bus (ev : pin_event) (e : env) (w : world) :
  bus_run (bus ev) e w tt 0.
Proof. eexists. split; [ reflexivity | apply bus_frame_event ]. Qed.

Lemma bus_run_bind {A B} (c : M A) (f : A -> M B) (e : env) (w : world)
    (a : A) (b : B) (k1 k2 : nat) :
  bus_run c e w a k1 ->
  (forall w', bus_frame w w' k1 -> bus_run (f a) e w' b k2) ->
  bus_run (bind c f) e w b (k2 + k1).
Proof.
  intros (w1 & E1 & F1) H.
  destruct (H w1 F1) as (w2 & E2 & F2).
  exists w2. split.
  - unfold bind. rewrite E1. exact E2.
  - eapply bus_frame_trans; eassumption.
Qed.

Lemma bus_run_bind0 {A B} (c : M A) (f : A -> M B) (e : env) (w : world)
    (a : A) (b : B) (k : nat) :
  bus_run c e w a 0 ->
  (forall w', bus_frame w w' 0 -> bus_run (f a) e w' b k) ->
  bus_run (bind c f) e w b k.
Proof.
  intros H1 H2. rewrite <- (Nat.add_0_r k). eapply bus_run_bind; eassumption.
Qed.

Lemma bus_run_readPin (e : env) (w : world) :
  bus_run readPinValue e w (io_level e (w_nin w)) 1.
Proof.
  eexists. split; [ reflexivity | ].
  repeat split. eexists [_]. reflexivity.
Qed.

Lemma bus_run_write_bits (k : nat) (data : Z) (e : env) (w : world) :
  bus_run (write_bits k data) e w tt 0.
Proof.
  revert data w. induction k as [ | k IH ]; intros data w.
  - apply bus_run_ret.
  - cbn [write_bits].
    repeat (eapply (bus_run_bind _ _ e _ tt tt 0 0);
            [ apply bus_run_bus | intros ? _ ]).
    apply IH.
Qed.

Lemma bus_run_write_bytes (k : nat) (data : list Z) (e : env) (w : world) :
  bus_run (write_bytes k data) e w tt 0.
Proof.
  revert data w. induction k as [ | k IH ]; intros data w.
  - apply bus_run_ret.
  - cbn [write_bytes].
    eapply (bus_run_bind _ _ e _ tt tt 0 0);
      [ apply bus_run_write_bits | intros ? _ ].
    apply IH.
Qed.

Lemma bus_run_read_cmd_bits (k : nat) (i reg : Z) (e : env) (w : world) :
  bus_run (read_cmd_bits k i reg) e w tt 0.
Proof.
  revert i reg w. induction k as [ | k IH ]; intros i reg w.
  - apply bus_run_ret.
  - cbn [read_cmd_bits].
    do 4 (eapply (bus_run_bind _ _ e _ tt tt 0 0);
          [ apply bus_run_bus | intros ? _ ]).
    eapply (bus_run_bind _ _ e _ tt tt 0 0); [ | intros ? _; apply IH ].
    destruct (i <? 7); [ | apply bus_run_ret ].
    eapply (bus_run_bind _ _ e _ tt tt 0 0);
      [ apply bus_run_bus | intros ? _; apply bus_run_bus ].
Qed.

Lemma bus_run_read_bits (k : nat) (i n data : Z) (e : env) (w : world) :
  bus_run (read_bits k i n data) e w (fold_bits e (w_nin w) k data) k.
Proof.
  revert i data w. induction k as [ | k IH ]; intros i data w.
  - apply bus_run_ret.
  - cbn [read_bits fold_bits].
    eapply bus_run_bind0; [ apply bus_run_bus | intros wa Fa ].
    eapply bus_run_bind0; [ apply bus_run_bus | intros wb Fb ].
    replace (S k) with (k + 1)%nat by lia.
    eapply bus_run_bind; [ apply bus_run_readPin | ].
    intros w1 F1.
    assert (Nb : w_nin wb = w_nin w).
    { destruct Fa as (_ & Na & _), Fb as (_ & Nb & _). lia. }
    rewrite Nb.
    eapply bus_run_bind0.
    + destruct ((i <? 7) || negb (n =? 0)); [ | apply bus_run_ret ].
      eapply bus_run_bind0;
        [ apply bus_run_bus | intros ? _; apply bus_run_bus ].
    + intros w2 F2.
      assert (N : w_nin w2 = S (w_nin w)).
      { destruct F1 as (_ & N1 & _), F2 as (_ & N2 & _). lia. }
      specialize (IH (i + 1) (shift_in (io_level e (w_nin w)) data) w2).
      rewrite N in IH. exact IH.
Qed.

Lemma bus_run_read_bytes (k : nat) (n : Z) (e : env) (w : world) :
  bus_run (read_bytes k n) e w (bytes_at e (w_nin w) k) (k * 8).
Proof.
  revert n w. induction k as [ | k IH ]; intros n w.
  - apply bus_run_ret.
  - cbn [read_bytes bytes_at].
    replace (S k * 8)%nat with (k * 8 + 8)%nat by lia.
    eapply bus_run_bind; [ apply bus_run_read_bits | ].
    intros w1 F1.
    assert (N1 : w_nin w1 = (8 + w_nin w)%nat)
      by (destruct F1 as (_ & N & _); exact N).
    rewrite <- (Nat.add_0_l (k * 8)).
    eapply bus_run_bind.
    + specialize (IH (n - 1) w1). rewrite N1 in IH. exact IH.
    + intros w2 _. apply bus_run_ret.
Qed.

(** A read of [n] registers returns the next [8 n] samples as bytes. *)
Lemma bus_run_readTOY (reg count n : Z) (e : env) (w : world) :
  (if u8 reg =? TOY_CBURST then n = TOY_CLK_REGS
   else if u8 reg =? TOY_RBURST then 1 <= count <= TOY_RAM_REGS /\ n = count
   else n = 1) ->
  bus_run (readTOY reg count) e w
          (bytes_at e (w_nin w) (Z.to_nat n)) (Z.to_nat n * 8).
Proof.
  intros Hn. unfold readTOY.
  eapply (bus_run_bind0 _ _ e w n).
  { destruct (u8 reg =? TOY_CBURST); [ subst n; apply bus_run_ret | ].
    destruct (u8 reg =? TOY_RBURST); [ | subst n; apply bus_run_ret ].
    destruct Hn as [Hc ->].
    replace ((count <=? 0) || (count >? TOY_RAM_REGS)) with false.
    - apply bus_run_ret.
    - symmetry. apply orb_false_iff. split; lia. }
  intros w0 F0.
  do 3 (eapply bus_run_bind0; [ apply bus_run_bus | intros ? ? ]).
  eapply bus_run_bind0; [ apply bus_run_read_cmd_bits | intros ? ? ].
  do 2 (eapply bus_run_bind0; [ apply bus_run_bus | intros ? ? ]).
  rewrite <- (Nat.add_0_l (Z.to_nat n * 8)).
  eapply (bus_run_bind _ _ e _ (bytes_at e (w_nin w) (Z.to_nat n))).
  - match goal with
    | |- bus_run _ e ?w1 _ _ =>
        assert (N : w_nin w1 = w_nin w)
          by (repeat match goal with
                     | H : bus_frame _ _ _ |- _ =>
                         destruct H as (_ & ? & _)
                     end; lia);
        rewrite <- N
    end.
    apply bus_run_read_bytes.
  - intros w1 F1.
    do 4 (eapply bus_run_bind0; [ apply bus_run_bus | intros ? ? ]).
    apply bus_run_ret.
Qed.

Lemma bus_run_readTOY_cburst (count : Z) (e : env) (w : world) :
  bus_run (readTOY TOY_CBURST count) e w (sample_at e (w_nin w)) 64.
Proof. apply (bus_run_readTOY TOY_CBURST count 8). reflexivity. Qed.

Lemma bus_run_writeTOY (reg count : Z) (data : list Z) (e : env) (w : world) :
  ((u8 reg =? TOY_RBURST) = true -> 1 <= count <= TOY_RAM_REGS) ->
  bus_run (writeTOY reg count data) e w tt 0.
Proof.
  intros Hn. unfold writeTOY.
  assert (exists n,
            bus_run (if u8 reg =? TOY_CBURST then ret TOY_CLK_REGS
                     else if u8 reg =? TOY_RBURST then
                       if (count <=? 0) || (count >? TOY_RAM_REGS) then
                         eprint ("Internal error, " ++ dec_of_Z count
                                 ++ " RAM write") ;;
                         exit EX_SOFTWARE
                       else ret count
                     else ret 1) e w n 0) as [n Hrun].
  { destruct (u8 reg =? TOY_CBURST); [ eexists; apply bus_run_ret | ].
    destruct (u8 reg =? TOY_RBURST); [ | eexists; apply bus_run_ret ].
    specialize (Hn eq_refl).
    replace ((count <=? 0) || (count >? TOY_RAM_REGS)) with false.
    - eexists; apply bus_run_ret.
    - symmetry. apply orb_false_iff. split; lia. }
  eapply bus_run_bind0; [ exact Hrun | intros ? ? ].
  do 3 (eapply bus_run_bind0; [ apply bus_run_bus | intros ? ? ]).
  eapply bus_run_bind0; [ apply bus_run_write_bits | intros ? ? ].
  eapply bus_run_bind0; [ apply bus_run_write_bytes | intros ? ? ].
  do 2 (eapply bus_run_bind0; [ apply bus_run_bus | intros ? ? ]).
  apply bus_run_bus.
Qed.

(** ** The stabilized read *)

Lemma land_15_range (a : Z) : 0 <= Z.land a 0x0f <= 15.
Proof.
  assert (H : Z.land a 0x0f = a mod 16) by (apply (Z.land_ones a 4); lia).
  rewrite H. pose proof (Z.mod_pos_bound a 16 eq_refl). lia.
Qed.

Lemma BIN_range (bcd : Z) : 0 <= BIN bcd <= 165.
Proof.
  unfold BIN.
  pose proof (land_15_range (Z.shiftr (u32 bcd) 4)).
  pose proof (land_15_range (u32 bcd)). lia.
Qed.

Lemma u8_toy_seconds (regs : clkregs) :
  u8 (toy_seconds regs) = toy_seconds regs.
Proof.
  unfold u8, toy_seconds. apply Z.mod_small.
  pose proof (BIN_range (Z.land (reg_get regs TOY_SEC) TOY_M_SEC)). lia.
Qed.

(** One pass of the loop on which the seconds did not change. *)
Lemma stabilize_pass_same (fuel : nat) (count : Z) (regs : clkregs)
    (e : env) (w : world) :
  toy_seconds (sample_at e (w_nin w)) = toy_seconds regs ->
  exists w2,
    bus_frame w w2 128
    /\ stabilize (S fuel) count regs e w
       = if count <? TOY_MAX_READS
         then stabilize fuel (count + 1) (sample_at e (64 + w_nin w)) e w2
         else (Ret (sample_at e (64 + w_nin w), count + 1), w2).
Proof.
  intros Hsame.
  destruct (bus_run_readTOY_cburst 0 e w) as (w1 & E1 & F1).
  destruct (bus_run_readTOY_cburst 0 e w1) as (w2 & E2 & F2).
  assert (N1 : w_nin w1 = (64 + w_nin w)%nat)
    by (destruct F1 as (_ & N & _); exact N).
  exists w2. split.
  - apply (bus_frame_trans w w1 w2 64 64); assumption.
  - cbn [stabilize]. unfold bind at 1. rewrite E1.
    rewrite u8_toy_seconds, Hsame, Z.eqb_refl. cbn [negb].
    unfold bind at 1. rewrite E2, N1.
    destruct (count <? TOY_MAX_READS); reflexivity.
Qed.

(** One pass on which the seconds changed: the loop breaks. *)
Lemma stabilize_pass_changed (fuel : nat) (count : Z) (regs : clkregs)
    (e : env) (w : world) :
  toy_seconds (sample_at e (w_nin w)) <> toy_seconds regs ->
  exists w1,
    bus_frame w w1 64
    /\ stabilize (S fuel) count regs e w
       = (Ret (sample_at e (w_nin w), count), w1).
Proof.
  intros Hdiff.
  destruct (bus_run_readTOY_cburst 0 e w) as (w1 & E1 & F1).
  exists w1. split; [ exact F1 | ].
  cbn [stabilize]. unfold bind at 1. rewrite E1.
  rewrite u8_toy_seconds.
  destruct (Z.eqb_spec (toy_seconds regs) (toy_seconds (sample_at e (w_nin w))))
    as [Heq | _]; [ congruence | reflexivity ].
Qed.

(** On a chip whose seconds never change, the loop started with the
    counter at [TOY_MAX_READS - m] makes [m + 1] passes, two burst reads
    each, and leaves the counter at [TOY_MAX_READS + 1]. *)
Lemma stabilize_stuck (m : nat) :
  forall (fuel : nat) (count : Z) (regs : clkregs) (e : env) (w : world),
    (m < fuel)%nat ->
    count = TOY_MAX_READS - Z.of_nat m ->
    (forall j : nat,
        toy_seconds (sample_at e (64 * j + w_nin w)) = toy_seconds regs) ->
    exists regs' w',
      stabilize fuel count regs e w = (Ret (regs', TOY_MAX_READS + 1), w')
      /\ bus_frame w w' (128 * (m + 1)).
Proof.
  induction m as [ | m IH ]; intros fuel count regs e w Hfuel Hcount Hstuck;
    destruct fuel as [ | fuel ]; try lia.
  - destruct (stabilize_pass_same fuel count regs e w (Hstuck O))
      as (w2 & F2 & E2).
    rewrite E2. replace (count <? TOY_MAX_READS) with false by (symmetry; lia).
    do 2 eexists. split; [ subst count; reflexivity | exact F2 ].
  - destruct (stabilize_pass_same fuel count regs e w (Hstuck O))
      as (w2 & F2 & E2).
    rewrite E2. replace (count <? TOY_MAX_READS) with true by (symmetry; lia).
    assert (N2 : w_nin w2 = (128 + w_nin w)%nat)
      by (destruct F2 as (_ & N & _); exact N).
    destruct (IH fuel (count + 1) (sample_at e (64 + w_nin w)) e w2)
      as (regs' & w' & E' & F'); [ lia | lia | | ].
    + intros j. rewrite N2.
      replace (64 * j + (128 + w_nin w))%nat
        with (64 * (j + 2) + w_nin w)%nat by lia.
      rewrite Hstuck. symmetry. apply (Hstuck 1%nat).
    + exists regs', w'. split; [ exact E' | ].
      replace (128 * (S m + 1))%nat with (128 * (m + 1) + 128)%nat by lia.
      eapply bus_frame_trans; eassumption.
Qed.

(** Whatever the chip does, the loop returns once it is given more fuel than
    [TOY_MAX_READS]: it never hangs. *)
Lemma stabilize_terminates (m : nat) :
  forall (fuel : nat) (count : Z) (regs : clkregs) (e : env) (w : world),
    (m < fuel)%nat ->
    count = TOY_MAX_READS - Z.of_nat m ->
    exists r w' k, stabilize fuel count regs e w = (Ret r, w')
                   /\ bus_frame w w' k.
Proof.
  induction m as [ | m IH ]; intros fuel count regs e w Hfuel Hcount;
    destruct fuel as [ | fuel ]; try lia;
    destruct (Z.eq_dec (toy_seconds (sample_at e (w_nin w))) (toy_seconds regs))
      as [Hsame | Hdiff].
  - destruct (stabilize_pass_same fuel count regs e w Hsame) as (w2 & F2 & E2).
    rewrite E2. replace (count <? TOY_MAX_READS) with false by (symmetry; lia).
    do 3 eexists. split; [ reflexivity | exact F2 ].
  - destruct (stabilize_pass_changed fuel count regs e w Hdiff)
      as (w1 & F1 & E1).
    rewrite E1. do 3 eexists. split; [ reflexivity | exact F1 ].
  - destruct (stabilize_pass_same fuel count regs e w Hsame) as (w2 & F2 & E2).
    rewrite E2. replace (count <? TOY_MAX_READS) with true by (symmetry; lia).
    destruct (IH fuel (count + 1) (sample_at e (64 + w_nin w)) e w2)
      as (r & w' & k & E' & F'); [ lia | lia | ].
    exists r, w', (k + 128)%nat. split; [ exact E' | ].
    eapply bus_frame_trans; eassumption.
  - destruct (stabilize_pass_changed fuel count regs e w Hdiff)
      as (w1 & F1 & E1).
    rewrite E1. do 3 eexists. split; [ reflexivity | exact F1 ].
Qed.

(** ** Running the calibration store *)

Lemma same_outside_refl (w : world) : same_outside w w.
Proof. repeat split. Qed.

Lemma same_outside_eprint (msg : string) (e : env) (w : world) :
  exists w', eprint msg e w = (Ret tt, w') /\ same_outside w w'
             /\ w_err w' = msg :: w_err w.
Proof. eexists. split; [ reflexivity | repeat split ]. Qed.

(** [readCalib] never exits and changes nothing but stderr; [readUpdate]
    goes on from it whether or not the model has the record. *)
Lemma attempt_readCalib_run (cfg : config) (e : env) (w : world) :
  exists o w', attempt (readCalib cfg) e w = (Ret o, w') /\ same_outside w w'.
Proof.
  unfold attempt, readCalib. destruct (calibfilename cfg) as [name | ].
  - unfold bind, fopen_r.
    destruct (if fs_fault e (OpOpenR name) then None else w_fs w !! name)
      as [f | ].
    + unfold lift. destruct (parse_calib (f_data f));
        do 2 eexists; (split; [ reflexivity | apply same_outside_refl ]).
    + do 2 eexists. split; [ reflexivity | repeat split ].
  - do 2 eexists. split; [ reflexivity | apply same_outside_refl ].
Qed.

Lemma readCalib_ret_inv (cfg : config) (e : env) (w w' : world) (c : calib) :
  readCalib cfg e w = (Ret c, w') -> same_outside w w'.
Proof.
  unfold readCalib. destruct (calibfilename cfg) as [name | ].
  - unfold bind, fopen_r.
    destruct (if fs_fault e (OpOpenR name) then None else w_fs w !! name)
      as [f | ].
    + unfold lift. destruct (parse_calib (f_data f)); intros H; inversion H.
      apply same_outside_refl.
    + intros H. inversion H. repeat split.
  - intros H. inversion H. apply same_outside_refl.
Qed.

(** With the file in place, [readCalib] is [parse_calib] of its bytes and
    leaves the world as it was. *)
Lemma readCalib_file (cfg : config) (e : env) (w : world)
    (name : string) (f : file) (c : calib) :
  calibfilename cfg = Some name ->
  fs_fault e (OpOpenR name) = false ->
  w_fs w !! name = Some f ->
  parse_calib (f_data f) = Some c ->
  readCalib cfg e w = (Ret c, w).
Proof.
  intros Hn Hf Hl Hp. unfold readCalib, bind, fopen_r.
  rewrite Hn, Hf, Hl, Hp. reflexivity.
Qed.

(** ** The read bound *)

Lemma TOY_MAX_READS_nonneg : 0 <= TOY_MAX_READS.
Proof. unfold TOY_MAX_READS. lia. Qed.

(** C6 (as the code has it): on a stuck chip [readUpdate] does not hang; it
    exits with EX_IOERR after the first burst read and [TOY_MAX_READS + 1]
    passes of the loop, two burst reads each, one more pass than the bound. *)
Theorem readUpdate_stuck_chip
    (LDBL_MANT_DIG TIME_BITS : Z) (cfg : config) (fuel : nat) (function : Z)
    (e : env) (w : world) :
  stuck_chip e (w_nin w) ->
  (Z.to_nat TOY_MAX_READS < fuel)%nat ->
  exists w',
    readUpdate LDBL_MANT_DIG TIME_BITS cfg fuel function e w
    = (Exit EX_IOERR, w')
    /\ Z.of_nat (w_nin w')
       = Z.of_nat (w_nin w) + 64 * (1 + 2 * (TOY_MAX_READS + 1))
    /\ w_fs w' = w_fs w /\ w_systime w' = w_systime w
    /\ hd_error (w_err w') = Some "TOY does not seem to be running"%string.
Proof.
  intros (Hmbz & Hhalt & Hstuck) Hfuel.
  pose proof TOY_MAX_READS_nonneg as Hmax.
  destruct (attempt_readCalib_run cfg e w)
    as (c & w1 & E1 & (P1 & N1 & F1 & C1 & S1)).
  destruct (bus_run_readTOY_cburst 0 e w1) as (w2 & E2 & F2).
  rewrite N1 in E2.
  assert (N2 : w_nin w2 = (64 + w_nin w)%nat)
    by (destruct F2 as (_ & N & _); lia).
  destruct (stabilize_stuck (Z.to_nat TOY_MAX_READS) fuel 0
                            (sample_at e (w_nin w)) e w2)
    as (regs' & w3 & E3 & F3); [ exact Hfuel | lia | | ].
  { intros j. rewrite N2.
    replace (64 * j + (64 + w_nin w))%nat
      with (64 * (j + 1) + w_nin w)%nat by lia.
    apply Hstuck. }
  unfold readUpdate. unfold bind at 1. rewrite E1.
  unfold bind at 1. rewrite E2, Hmbz, Hhalt. cbn [Z.eqb negb].
  unfold bind at 1. rewrite E3.
  unfold bind at 1. unfold clock_gettime at 1.
  replace (TOY_MAX_READS + 1 >=? TOY_MAX_READS) with true
    by (symmetry; apply Z.geb_le; lia).
  eexists. split; [ reflexivity | ].
  cbn [w_nin w_fs w_systime w_err hd_error].
  destruct F3 as (_ & N3 & Fs3 & _ & _ & Sy3).
  destruct F2 as (_ & _ & Fs2 & _ & _ & Sy2).
  repeat split; try congruence.
  rewrite N3, N2. lia.
Qed.

(** The IO line stuck low: every register reads zero, so the chip looks
    present and running with the seconds frozen at 00. *)
Lemma readUpdate_stuck_chip_witness :
  let e := mk_env (fun _ => false) (fun _ => None) (fun _ => false) 0 None in
  let w := mk_world [] 0 ∅ 0 [] None in
  let cfg := mk_config false false false None false false 12 in
  exists w',
    readUpdate 53 32 cfg (Z.to_nat 30001) F_READ e w = (Exit EX_IOERR, w')
    /\ Z.of_nat (w_nin w') = 64 * (1 + 2 * 30001).
Proof.
  intros e w cfg.
  destruct (readUpdate_stuck_chip 53 32 cfg (Z.to_nat 30001) F_READ e w)
    as (w' & E & N & _).
  - repeat split.
  - apply Z2Nat.inj_lt; unfold TOY_MAX_READS; lia.
  - exists w'. split; [ exact E | exact N ].
Defined.

(** ** The calibration store: when nothing is written *)

(** C10: with an invalid record, or with no calibration file configured,
    [writeCalib] returns at once and the world (files, bus, clock, stderr) is
    exactly as it was. *)
Theorem writeCalib_noop
    (cfg : config) (c : calib) (ts : timespec) (e : env) (w : world) :
  calibfilename cfg = None \/ valid c = false ->
  writeCalib cfg c ts e w = (Ret tt, w).
Proof.
  intros [Hname | Hvalid]; unfold writeCalib.
  - rewrite Hname. reflexivity.
  - destruct (calibfilename cfg); [ rewrite Hvalid | ]; reflexivity.
Qed.

(** A stored valid record survives the attempt to store an invalid one. *)
Lemma writeCalib_noop_witness :
  let old := mk_file (calib_text readme_calib (mk_tm 26 33 20 22 8 120 2 265 0)
                                 87274313) 5 6 in
  let w := mk_world [] 0 (<["/etc/rtc-ctl.dat"%string := old]> ∅) 0 [] None in
  let e := mk_env (fun _ => false) (fun _ => None) (fun _ => false) 9 None in
  let cfg := mk_config false false false (Some "/etc/rtc-ctl.dat"%string)
                       false false 12 in
  valid (mk_calib 1 (1 # 2) false) = false
  /\ writeCalib cfg (mk_calib 1 (1 # 2) false) (mk_timespec 1673776845 0) e w
     = (Ret tt, w).
Proof.
  intros old w e cfg. split; [ reflexivity | ].
  apply (writeCalib_noop cfg (mk_calib 1 (1 # 2) false)
                         (mk_timespec 1673776845 0) e w).
  right. reflexivity.
Defined.

(** ** The calibration store: reading *)

(** No file configured, or a file that cannot be opened: the zero record. *)
Lemma readCalib_no_file (cfg : config) (e : env) (w : world) :
  match calibfilename cfg with
  | None => True
  | Some name => fs_fault e (OpOpenR name) = true \/ w_fs w !! name = None
  end ->
  exists w', readCalib cfg e w = (Ret calib_zero, w') /\ same_outside w w'.
Proof.
  unfold readCalib. destruct (calibfilename cfg) as [name | ]; intros H.
  - unfold bind, fopen_r.
    assert (Hopen : (if fs_fault e (OpOpenR name) then None
                     else w_fs w !! name) = None).
    { destruct H as [-> | H]; [ reflexivity | ].
      destruct (fs_fault e (OpOpenR name)); [ reflexivity | exact H ]. }
    rewrite Hopen. eexists. split; [ reflexivity | repeat split ].
  - eexists. split; [ reflexivity | apply same_outside_refl ].
Qed.

(** The record is marked valid only after both numbers were accepted and
    the third line was exactly "UTC". *)
Lemma parse_calib_valid (data : string) (c : calib) :
  parse_calib data = Some c ->
  valid c = true ->
  exists buf1 rest1 r1 buf2 rest2 r2 buf3 rest3,
    fgets 100 data = Some (buf1, rest1)
    /\ strtold (cstr buf1) = Some r1
    /\ number_rejected (cstr buf1) r1 = false
    /\ fgets 100 rest1 = Some (buf2, rest2)
    /\ strtold (cstr buf2) = Some r2
    /\ number_rejected (cstr buf2) r2 = false
    /\ fgets 100 rest2 = Some (buf3, rest3)
    /\ cstr buf3 = ("UTC" ++ NL)%string
    /\ c = mk_calib (sv r1) (sv r2) true.
Proof.
  unfold parse_calib.
  destruct (fgets 100 data) as [[buf1 rest1] | ] eqn:G1;
    [ | intros H; inversion H; subst c; discriminate ].
  destruct (strtold (cstr buf1)) as [r1 | ] eqn:S1; [ | discriminate ].
  cbn [mbind option_bind].
  destruct (number_rejected (cstr buf1) r1) eqn:R1;
    [ intros H; inversion H; subst c; discriminate | ].
  destruct (fgets 100 rest1) as [[buf2 rest2] | ] eqn:G2;
    [ | intros H; inversion H; subst c; discriminate ].
  destruct (strtold (cstr buf2)) as [r2 | ] eqn:S2; [ | discriminate ].
  cbn [mbind option_bind].
  destruct (number_rejected (cstr buf2) r2) eqn:R2;
    [ intros H; inversion H; subst c; discriminate | ].
  destruct (fgets 100 rest2) as [[buf3 rest3] | ] eqn:G3;
    [ | intros H; inversion H; subst c; discriminate ].
  destruct (String.eqb (cstr buf3) ("UTC" ++ NL)) eqn:E3;
    [ | intros H; inversion H; subst c; discriminate ].
  intros H _. inversion H.
  exists buf1, rest1, r1, buf2, rest2, r2, buf3, rest3.
  apply String.eqb_eq in E3.
  repeat (split; [ first [ reflexivity | assumption ] | ]). reflexivity.
Qed.

(** C5 (as the code has it): a file whose two number lines parse but whose
    third line is not "UTC" is reported invalid, without an error, but the
    record is not zero: it keeps the two numbers read before the failure. *)
Theorem readCalib_damaged_file :
  readCalib default_config (quiet_env [] 0) (world_with damaged_file)
  = (Ret (mk_calib (lastset readme_calib) (driftrate readme_calib) false),
     world_with damaged_file).
Proof. vm_compute. reflexivity. Qed.

(** The intact file is read back as written. *)
Example readCalib_readme_file :
  readCalib default_config (quiet_env [] 0) (world_with readme_file)
  = (Ret readme_calib, world_with readme_file).
Proof. vm_compute. reflexivity. Qed.

(** ** The calibration store: writing *)

(** Without faults: the old file is copied to the backup with its times,
    the new text replaces the target, the temporary file is gone. *)
Example writeCalib_no_fault :
  exists w',
    writeCalib default_config new_calib new_ts (quiet_env [] 1673778900)
               (world_with readme_file) = (Ret tt, w')
    /\ w_fs w' !! (calib_path ++ ".bak")%string = Some readme_file
    /\ w_fs w' !! calib_path
       = Some (mk_file
                 ("1673778895.000000000 (Sun Jan 15 2023 10:34:55.000 UTC)"
                  ++ NL ++ "-0.000029840891 (-29.841 PPM)" ++ NL
                  ++ "UTC" ++ NL)%string
                 1673778900 1673778900)
    /\ w_fs w' !! (calib_path ++ ".tmp")%string = None
    /\ w_err w' = [].
Proof. eexists. split; [ vm_compute; reflexivity | ]. repeat split. Qed.

(** A failure in the backup step ends the process. *)
Example writeCalib_backup_fault :
  exists w',
    writeCalib default_config new_calib new_ts
               (faulty_env (OpOpenW (calib_path ++ ".bak")) 1673778900)
               (world_with readme_file) = (Exit EX_IOERR, w')
    /\ w_fs w' = w_fs (world_with readme_file).
Proof. eexists. split; [ vm_compute; reflexivity | reflexivity ]. Qed.

(** With no previous file to back up, a temporary file that cannot be
    opened only costs a line on stderr: [writeCalib] returns as if it had
    stored the record. *)
Lemma writeCalib_tmp_open_fault
    (cfg : config) (c : calib) (ts : timespec) (e : env) (w : world)
    (name : string) (t : tm) :
  calibfilename cfg = Some name ->
  valid c = true ->
  gmtime_r (tv_sec ts) = Some t ->
  w_fs w !! name = None ->
  fs_fault e (OpOpenW (name ++ ".tmp")) = true ->
  writeCalib cfg c ts e w
  = (Ret tt, mk_world (w_pins w) (w_nin w) (w_fs w) (w_nclk w)
                      ((name ++ ".tmp")%string :: w_err w) (w_systime w)).
Proof.
  intros Hname Hvalid Htm Hnone Hfault.
  unfold writeCalib. rewrite Hname, Hvalid, Htm. cbn [negb].
  unfold bind at 1. unfold bind at 1. unfold fopen_r at 1. rewrite Hnone.
  assert (Hopen : (if fs_fault e (OpOpenR name) then None else @None file)
                  = None)
    by (destruct (fs_fault e (OpOpenR name)); reflexivity).
  rewrite Hopen. unfold ret at 1. unfold bind at 1. unfold fopen_w at 1.
  rewrite Hfault. reflexivity.
Qed.

(** C4 (as the code has it): storing over the README's file when the
    temporary file cannot be opened.  The backup is made, the error is
    printed, and [writeCalib] returns normally with the target still holding
    the old record; the same happens when the final rename fails. *)
Theorem writeCalib_write_errors_swallowed :
  (exists w',
      writeCalib default_config new_calib new_ts
                 (faulty_env (OpOpenW (calib_path ++ ".tmp")) 1673778900)
                 (world_with readme_file) = (Ret tt, w')
      /\ w_fs w' !! calib_path = Some readme_file
      /\ w_fs w' !! (calib_path ++ ".bak")%string = Some readme_file
      /\ w_err w' = [(calib_path ++ ".tmp")%string])
  /\ (exists w',
      writeCalib default_config new_calib new_ts
                 (faulty_env (OpRename (calib_path ++ ".tmp") calib_path)
                             1673778900)
                 (world_with readme_file) = (Ret tt, w')
      /\ w_fs w' !! calib_path = Some readme_file
      /\ w_err w' = [calib_path]).
Proof.
  split; eexists; (split; [ vm_compute; reflexivity | repeat split ]).
Qed.

(** ** Setting the clock: the drift fit *)

Lemma seconds_change_at_unshift (e : env) (n0 j : nat) :
  toy_seconds (burst e n0 1) = toy_seconds (burst e n0 0) ->
  seconds_change_at e (128 + n0) j -> seconds_change_at e n0 (S j).
Proof.
  unfold seconds_change_at, burst. intros H0 [Hsame Hdiff]. split.
  - intros p Hp. destruct p as [ | p ]; [ exact H0 | ].
    specialize (Hsame p ltac:(lia)).
    replace (64 * (2 * S p + 1) + n0)%nat
      with (64 * (2 * p + 1) + (128 + n0))%nat by lia.
    replace (64 * (2 * S p) + n0)%nat
      with (64 * (2 * p) + (128 + n0))%nat by lia.
    exact Hsame.
  - replace (64 * (2 * S j + 1) + n0)%nat
      with (64 * (2 * j + 1) + (128 + n0))%nat by lia.
    replace (64 * (2 * S j) + n0)%nat
      with (64 * (2 * j) + (128 + n0))%nat by lia.
    exact Hdiff.
Qed.

(** The read loop started with the counter at [TOY_MAX_READS - m] and more
    than [m] units of fuel: either the seconds change on a pass [j <= m] and
    the loop breaks there with the registers of burst [2j+1], or they are the
    same on all [m + 1] passes and the counter ends at [TOY_MAX_READS + 1]. *)
Lemma stabilize_cases (m : nat) :
  forall (fuel : nat) (count : Z) (e : env) (w : world) (n0 : nat),
    w_nin w = (64 + n0)%nat ->
    (m < fuel)%nat ->
    count = TOY_MAX_READS - Z.of_nat m ->
    (exists (j : nat) (w' : world),
        (j <= m)%nat
        /\ seconds_change_at e n0 j
        /\ stabilize fuel count (burst e n0 0) e w
           = (Ret (burst e n0 (2 * j + 1), count + Z.of_nat j), w')
        /\ bus_frame w w' (64 + 128 * j))
    \/ ((forall p : nat, (p <= m)%nat ->
           toy_seconds (burst e n0 (2 * p + 1))
           = toy_seconds (burst e n0 (2 * p)))
        /\ exists w',
             stabilize fuel count (burst e n0 0) e w
             = (Ret (burst e n0 (2 * m + 2), TOY_MAX_READS + 1), w')
             /\ bus_frame w w' (128 * (m + 1))).
Proof.
  induction m as [ | m IH ]; intros fuel count e w n0 Hn Hfuel Hcount;
    destruct fuel as [ | fuel ]; try lia;
    destruct (Z.eq_dec (toy_seconds (burst e n0 1)) (toy_seconds (burst e n0 0)))
      as [Hsame | Hdiff].
  - right. split.
    + intros p Hp. replace p with O by lia. exact Hsame.
    + destruct (stabilize_pass_same fuel count (burst e n0 0) e w)
        as (w2 & F2 & E2).
      { rewrite Hn. exact Hsame. }
      rewrite E2.
      replace (count <? TOY_MAX_READS) with false by (symmetry; lia).
      exists w2. split; [ | exact F2 ].
      rewrite Hn. unfold burst.
      replace (64 * (2 * 0 + 2) + n0)%nat with (64 + (64 + n0))%nat by lia.
      replace (count + 1) with (TOY_MAX_READS + 1) by lia.
      reflexivity.
  - left. exists O.
    destruct (stabilize_pass_changed fuel count (burst e n0 0) e w)
      as (w1 & F1 & E1).
    { rewrite Hn. exact Hdiff. }
    exists w1. split; [ lia | ].
    split; [ split; [ intros p Hp; lia | exact Hdiff ] | ].
    split; [ | exact F1 ].
    rewrite E1, Hn. unfold burst. cbn [Z.of_nat]. rewrite Z.add_0_r.
    reflexivity.
  - destruct (stabilize_pass_same fuel count (burst e n0 0) e w)
      as (w2 & F2 & E2).
    { rewrite Hn. exact Hsame. }
    assert (N2 : w_nin w2 = (64 + (128 + n0))%nat)
      by (destruct F2 as (_ & N & _); lia).
    assert (Eb : sample_at e (64 + w_nin w) = burst e (128 + n0) 0).
    { unfold burst. rewrite Hn. f_equal. }
    assert (Hidx : forall k : nat, burst e (128 + n0) k = burst e n0 (k + 2)).
    { intros k. unfold burst. f_equal. lia. }
    destruct (IH fuel (count + 1) e w2 (128 + n0)%nat N2)
      as [(j & w' & Hj & Hchg & E' & F') | (Hall & w' & E' & F')];
      [ lia | lia | | ].
    + left. exists (S j), w'. split; [ lia | ].
      split; [ apply seconds_change_at_unshift; assumption | ].
      split.
      * rewrite E2.
        replace (count <? TOY_MAX_READS) with true by (symmetry; lia).
        rewrite Eb, E'. rewrite Hidx.
        replace (2 * j + 1 + 2)%nat with (2 * S j + 1)%nat by lia.
        replace (count + 1 + Z.of_nat j) with (count + Z.of_nat (S j)) by lia.
        reflexivity.
      * replace (64 + 128 * S j)%nat with (64 + 128 * j + 128)%nat by lia.
        eapply bus_frame_trans; eassumption.
    + right. split.
      * intros p Hp. destruct p as [ | p ]; [ exact Hsame | ].
        specialize (Hall p ltac:(lia)). rewrite !Hidx in Hall.
        replace (2 * S p + 1)%nat with (2 * p + 1 + 2)%nat by lia.
        replace (2 * S p)%nat with (2 * p + 2)%nat by lia.
        exact Hall.
      * exists w'. split.
        -- rewrite E2.
           replace (count <? TOY_MAX_READS) with true by (symmetry; lia).
           rewrite Eb, E'. rewrite Hidx.
           replace (2 * m + 2 + 2)%nat with (2 * S m + 2)%nat by lia.
           reflexivity.
        -- replace (128 * (S m + 1))%nat with (128 * (m + 1) + 128)%nat
             by lia.
           eapply bus_frame_trans; eassumption.
  - left. exists O.
    destruct (stabilize_pass_changed fuel count (burst e n0 0) e w)
      as (w1 & F1 & E1).
    { rewrite Hn. exact Hdiff. }
    exists w1. split; [ lia | ].
    split; [ split; [ intros p Hp; lia | exact Hdiff ] | ].
    split; [ | exact F1 ].
    rewrite E1, Hn. unfold burst. cbn [Z.of_nat]. rewrite Z.add_0_r.
    reflexivity.
Qed.

Lemma decodeTOY_ret_inv (TIME_BITS : Z) (cfg : config) (regs : clkregs)
    (e : env) (w w' : world) (t : Z) :
  decodeTOY TIME_BITS cfg regs e w = (Ret t, w') ->
  t = timegm TIME_BITS (decodeTOY_tm regs) /\ t <> -1
  /\ w_nin w' = w_nin w.
Proof.
  unfold decodeTOY, bind, eprint, exit, ret. intros H.
  destruct (debug cfg && (Z.land (reg_get regs TOY_CTL) TOY_M_WP =? 0));
    destruct (timegm TIME_BITS (decodeTOY_tm regs) =? -1) eqn:Ht;
    inversion H; subst; apply Z.eqb_neq in Ht; auto.
Qed.

Lemma bind_ret_inv {A B} (c : M A) (k : A -> M B) (e : env) (w w' : world)
    (b : B) :
  bind c k e w = (Ret b, w') ->
  exists a w1, c e w = (Ret a, w1) /\ k a e w1 = (Ret b, w').
Proof.
  unfold bind. destruct (c e w) as [[a | code | | ] w1]; try discriminate.
  intros H. exists a, w1. split; [ reflexivity | exact H ].
Qed.

Lemma lift_ret_inv {A} (o : option A) (e : env) (w w' : world) (a : A) :
  lift o e w = (Ret a, w') -> o = Some a /\ w' = w.
Proof.
  destruct o as [a' | ]; unfold lift, ret, undef; intros H; inversion H.
  split; reflexivity.
Qed.

Lemma clock_gettime_inv (e : env) (w w' : world) (t : option timespec) :
  clock_gettime e w = (Ret t, w') ->
  t = host_clock e (w_nclk w)
  /\ w_nclk w' = S (w_nclk w) /\ w_nin w' = w_nin w /\ w_fs w' = w_fs w.
Proof.
  unfold clock_gettime. intros H. inversion H. repeat split.
Qed.

(** The test of the calibration update, in the words of the amended
    claim. *)
Lemma refit_due_past_minimum_run
    (LDBL_MANT_DIG ULONG_BITS : Z) (cfg : config) (cal : calib) (newt : Z) :
  refit_due LDBL_MANT_DIG ULONG_BITS cfg cal newt
  = past_minimum_run LDBL_MANT_DIG ULONG_BITS cfg cal newt.
Proof.
  unfold refit_due, past_minimum_run, calrun_seconds.
  replace (calrundays cfg * 24 * 60 * 60) with (calrundays cfg * 86400) by lia.
  destruct (ld_of_Z LDBL_MANT_DIG newt) as [n | ];
    destruct (ld_of_Z LDBL_MANT_DIG (ulong ULONG_BITS (calrundays cfg * 86400)))
      as [thr | ]; cbn; try reflexivity;
    destruct (ld_add LDBL_MANT_DIG (lastset cal) thr); reflexivity.
Qed.

(** When the calibration update returns: either the record comes back as it
    was (it was invalid, the requested time was not beyond the minimum run,
    the chip was halted, or no pass before the bound saw the seconds change),
    or the rate was refitted from the pass [j] that saw the change. *)
Lemma fit_drift_ret_inv
    (LDBL_MANT_DIG ULONG_BITS TIME_BITS : Z) (cfg : config) (fuel : nat)
    (cal cal1 : calib) (newt : Z) (e : env) (w w2 : world) :
  (Z.to_nat TOY_MAX_READS < fuel)%nat ->
  fit_drift LDBL_MANT_DIG ULONG_BITS TIME_BITS cfg fuel cal newt e w
  = (Ret cal1, w2) ->
  (cal1 = cal
   /\ (valid cal = false
       \/ refit_due LDBL_MANT_DIG ULONG_BITS cfg cal newt = Some false
       \/ Z.land (reg_get (burst e (w_nin w) 0) TOY_SEC) TOY_M_HALT <> 0
       \/ forall p : nat,
            Z.of_nat p < TOY_MAX_READS ->
            toy_seconds (burst e (w_nin w) (2 * p + 1))
            = toy_seconds (burst e (w_nin w) (2 * p))))
  \/ (valid cal = true
      /\ refit_due LDBL_MANT_DIG ULONG_BITS cfg cal newt = Some true
      /\ Z.land (reg_get (burst e (w_nin w) 0) TOY_SEC) TOY_M_HALT = 0
      /\ exists (j : nat) (etime : timespec),
           Z.of_nat j < TOY_MAX_READS
           /\ seconds_change_at e (w_nin w) j
           /\ host_clock e (w_nclk w) = Some etime
           /\ timegm TIME_BITS (decodeTOY_tm (burst e (w_nin w) (2 * j + 1)))
              <> -1
           /\ drift_fit LDBL_MANT_DIG cal
                (timegm TIME_BITS (decodeTOY_tm (burst e (w_nin w) (2 * j + 1))))
                etime
              = Some (driftrate cal1)
           /\ lastset cal1 = lastset cal /\ valid cal1 = valid cal).
Proof.
  intros Hfuel H. unfold fit_drift in H.
  apply bind_ret_inv in H as (due & w0 & Hdue & H).
  apply lift_ret_inv in Hdue as [Hdue ->].
  destruct due.
  2:{ inversion H; subst cal1 w2. left. split; [ reflexivity | ].
      destruct (valid cal); [ right; left; exact Hdue | left; reflexivity ]. }
  destruct (valid cal) eqn:Hv; [ | discriminate Hdue ].
  apply bind_ret_inv in H as (regs & w1 & Hr & H).
  destruct (bus_run_readTOY_cburst 0 e w) as (w1' & E1 & F1).
  rewrite E1 in Hr. inversion Hr; subst regs w1'. clear Hr.
  change (sample_at e (w_nin w)) with (burst e (w_nin w) 0) in H.
  destruct (Z.land (reg_get (burst e (w_nin w) 0) TOY_MON) TOY_M_MON_MBZ =? 0)
    eqn:Hmbz; cbn [negb] in H;
    [ | unfold bind, eprint, exit in H; discriminate H ].
  destruct (Z.land (reg_get (burst e (w_nin w) 0) TOY_SEC) TOY_M_HALT =? 0)
    eqn:Hhalt.
  2:{ inversion H; subst cal1 w2. left. split; [ reflexivity | ].
      right; right; left. apply Z.eqb_neq. exact Hhalt. }
  apply Z.eqb_eq in Hhalt.
  apply bind_ret_inv in H as ([regs1 try] & w3 & Hs & H).
  apply bind_ret_inv in H as (et & w4 & Hg & H).
  apply clock_gettime_inv in Hg as (Het & _).
  assert (N1 : w_nin w1 = (64 + w_nin w)%nat)
    by (destruct F1 as (_ & N & _); exact N).
  assert (C1 : w_nclk w1 = w_nclk w)
    by (destruct F1 as (_ & _ & _ & C & _); exact C).
  pose proof TOY_MAX_READS_nonneg as Hmax.
  remember (Z.to_nat TOY_MAX_READS) as m eqn:Hm.
  destruct (stabilize_cases m fuel 0 e w1 (w_nin w) N1 Hfuel ltac:(lia))
    as [(j & w3' & Hj & Hchg & Es & Fs) | (Hall & w3' & Es & Fs)];
    rewrite Es in Hs; inversion Hs; subst regs1 try w3'; clear Hs;
    (assert (C3 : w_nclk w3 = w_nclk w)
      by (destruct Fs as (_ & _ & _ & C & _); congruence));
    rewrite C3 in Het; subst et;
    (destruct (host_clock e (w_nclk w)) as [etime | ] eqn:Hclk;
     [ | unfold bind, perror, eprint, exit in H; discriminate H ]).
  - destruct (0 + Z.of_nat j <? TOY_MAX_READS) eqn:Hlt.
    + apply bind_ret_inv in H as (t & w5 & Hd & H).
      apply decodeTOY_ret_inv in Hd as (Ht & Hne & _).
      apply bind_ret_inv in H as (rate & w6 & Hrate & H).
      apply lift_ret_inv in Hrate as [Hrate ->].
      inversion H; subst cal1 w2. subst t.
      right. split; [ reflexivity | ]. split; [ exact Hdue | ].
      split; [ exact Hhalt | ].
      exists j, etime. cbn [driftrate lastset valid].
      repeat split; try assumption; try apply Hchg. lia.
    + inversion H; subst cal1 w2. left. split; [ reflexivity | ].
      right; right; right. intros p Hp.
      apply Hchg. apply Z.ltb_ge in Hlt. lia.
  - replace (TOY_MAX_READS + 1 <? TOY_MAX_READS) with false in H
      by reflexivity.
    inversion H; subst cal1 w2. left. split; [ reflexivity | ].
    right; right; right. intros p Hp. apply Hall. lia.
Qed.

(** ** Outcomes: how each operation can end *)

Lemma ends_ret {A} (codes : list Z) (a : A) : ends_within codes (ret a).
Proof. intros e w r w' H. inversion H. exact I. Qed.

Lemma ends_exit {A} (codes : list Z) (code : Z) :
  In code codes -> ends_within codes (@exit A code).
Proof. intros Hin e w r w' H. inversion H. exact Hin. Qed.

Lemma ends_lift {A} (codes : list Z) (o : option A) :
  ends_within codes (lift o).
Proof. intros e w r w' H. destruct o; inversion H; exact I. Qed.

Lemma ends_undef {A} (codes : list Z) : ends_within codes (@undef A).
Proof. intros e w r w' H. inversion H. exact I. Qed.

Lemma ends_bind {A B} (codes : list Z) (c : M A) (k : A -> M B) :
  ends_within codes c -> (forall a, ends_within codes (k a)) ->
  ends_within codes (bind c k).
Proof.
  intros Hc Hk e w r w' H. unfold bind in H.
  destruct (c e w) as [[a | code | | ] w1] eqn:E.
  - exact (Hk a e w1 r w' H).
  - inversion H; subst. exact (Hc e w _ _ E).
  - inversion H; subst. exact (Hc e w _ _ E).
  - inversion H; subst. exact I.
Qed.

Lemma ends_mono {A} (codes codes' : list Z) (c : M A) :
  (forall x, In x codes -> In x codes') ->
  ends_within codes c -> ends_within codes' c.
Proof.
  intros Hsub Hc e w r w' H. specialize (Hc e w r w' H).
  destruct r; auto.
Qed.

(** An operation that always returns. *)
Lemma ends_of_run {A} (codes : list Z) (c : M A) :
  (forall e w, exists a w', c e w = (Ret a, w')) -> ends_within codes c.
Proof.
  intros Hrun e w r w' H. destruct (Hrun e w) as (a & w1 & E).
  rewrite E in H. inversion H. exact I.
Qed.

Ltac ends_prim :=
  apply ends_of_run; intros e w; cbv beta delta
    [eprint perror clock_gettime fopen_r fopen_w append_file
     utime rename get_env bus readPinValue];
  repeat match goal with
         | |- context [match ?x with _ => _ end] => destruct x
         end;
  do 2 eexists; reflexivity.

Lemma ends_get_env (codes : list Z) : ends_within codes get_env.
Proof. ends_prim. Qed.
Lemma ends_eprint (codes : list Z) (msg : string) :
  ends_within codes (eprint msg).
Proof. ends_prim. Qed.
Lemma ends_clock (codes : list Z) : ends_within codes clock_gettime.
Proof. ends_prim. Qed.
Lemma ends_fopen_r (codes : list Z) (p : string) :
  ends_within codes (fopen_r p).
Proof. ends_prim. Qed.
Lemma ends_fopen_w (codes : list Z) (p : string) :
  ends_within codes (fopen_w p).
Proof. ends_prim. Qed.
Lemma ends_append (codes : list Z) (p t : string) :
  ends_within codes (append_file p t).
Proof. ends_prim. Qed.
Lemma ends_utime (codes : list Z) (p : string) (a m : Z) :
  ends_within codes (utime p a m).
Proof. ends_prim. Qed.
Lemma ends_rename (codes : list Z) (p q : string) :
  ends_within codes (rename p q).
Proof. ends_prim. Qed.

Create HintDb outcomes.
#[local] Hint Resolve ends_get_env ends_eprint ends_clock ends_fopen_r
  ends_fopen_w ends_append ends_utime ends_rename ends_lift : outcomes.

Ltac ends_step :=
  match goal with
  | |- ends_within _ (bind _ _) => apply ends_bind; [ | intros ? ]
  | |- ends_within _ (ret _) => apply ends_ret
  | |- ends_within _ (lift _) => apply ends_lift
  | |- ends_within _ undef => apply ends_undef
  | |- ends_within _ (exit (if ?b then _ else _)) => destruct b
  | |- ends_within _ (exit _) => apply ends_exit; simpl; tauto
  | |- ends_within _ (if ?b then _ else _) => destruct b
  | |- ends_within _ (match ?x with _ => _ end) => destruct x
  | |- ends_within _ (let '(_, _) := ?p in _) => destruct p
  end.

Ltac ends := repeat first [ ends_step | solve [ auto with outcomes ] ].

Lemma ends_readCalib (codes : list Z) (cfg : config) :
  ends_within codes (readCalib cfg).
Proof. unfold readCalib, perror. ends. Qed.

Lemma ends_copy_bytes (codes : list Z) (bak data : string) :
  forall pos, ends_within codes (copy_bytes bak data pos).
Proof.
  induction data as [ | c rest IH ]; intros pos; simpl.
  - apply ends_ret.
  - unfold fputc. ends.
Qed.

Lemma ends_writeCalib (cfg : config) (c : calib) (ts : timespec) :
  ends_within [EX_OSERR; EX_IOERR] (writeCalib cfg c ts).
Proof.
  unfold writeCalib, perror, fstat, fclose, fprintf. ends.
  all: apply ends_copy_bytes.
Qed.

Lemma ends_readTOY_cburst (codes : list Z) (count : Z) :
  ends_within codes (readTOY TOY_CBURST count).
Proof.
  apply ends_of_run. intros e w.
  destruct (bus_run_readTOY_cburst count e w) as (w' & E & _).
  eauto.
Qed.

Lemma ends_stabilize (codes : list Z) (fuel : nat) (regs : clkregs) :
  (Z.to_nat TOY_MAX_READS < fuel)%nat ->
  ends_within codes (stabilize fuel 0 regs).
Proof.
  intros Hfuel. apply ends_of_run. intros e w.
  destruct (stabilize_terminates (Z.to_nat TOY_MAX_READS) fuel 0 regs e w
              Hfuel eq_refl) as (r & w' & k & E & _).
  eauto.
Qed.

Lemma ends_decodeTOY (codes : list Z) (TIME_BITS : Z) (cfg : config)
    (regs : clkregs) :
  In EX_OSERR codes -> ends_within codes (decodeTOY TIME_BITS cfg regs).
Proof.
  intros Hin. unfold decodeTOY.
  apply ends_bind; [ destruct (_ && _); auto with outcomes; apply ends_ret | ].
  intros _. destruct (_ =? -1); [ | apply ends_ret ].
  apply ends_bind; [ auto with outcomes | intros _; apply ends_exit; exact Hin ].
Qed.

Lemma ends_unlockTOY (codes : list Z) (cfg : config) :
  In EX_CONFIG codes -> ends_within codes (unlockTOY cfg).
Proof.
  intros Hin. unfold unlockTOY.
  apply ends_bind.
  { apply ends_of_run. intros e w.
    destruct (bus_run_writeTOY TOY_CTL 0
                [if testmode cfg then TOY_M_WP else 0] e w)
      as (w' & E & _); [ discriminate | eauto ]. }
  intros _. apply ends_bind.
  { apply ends_of_run. intros e w.
    destruct (bus_run_readTOY (Z.lor TOY_CTL TOY_SCATTER) 0 1 e w)
      as (w' & E & _); [ reflexivity | eauto ]. }
  intros r. destruct (negb _); [ | apply ends_ret ].
  apply ends_bind; [ auto with outcomes | intros _ ].
  apply ends_bind; [ destruct (debug cfg); auto with outcomes; apply ends_ret | ].
  intros _. apply ends_exit. exact Hin.
Qed.

Lemma ends_fit_drift (codes : list Z) (LDBL_MANT_DIG ULONG_BITS TIME_BITS : Z)
    (cfg : config) (fuel : nat) (cal : calib) (newt : Z) :
  (Z.to_nat TOY_MAX_READS < fuel)%nat ->
  In EX_CONFIG codes -> In EX_OSERR codes ->
  ends_within codes
    (fit_drift LDBL_MANT_DIG ULONG_BITS TIME_BITS cfg fuel cal newt).
Proof.
  intros Hfuel H1 H2. unfold fit_drift, perror.
  apply ends_bind; [ apply ends_lift | intros due ].
  destruct due; [ | apply ends_ret ].
  apply ends_bind; [ apply ends_readTOY_cburst | intros regs ].
  destruct (negb _).
  { apply ends_bind; [ auto with outcomes | intros _; apply ends_exit; exact H1 ]. }
  destruct (_ =? 0); [ | apply ends_ret ].
  apply ends_bind; [ apply ends_stabilize; exact Hfuel | intros [regs1 n] ].
  apply ends_bind; [ apply ends_clock | intros [etime | ] ].
  - destruct (n <? TOY_MAX_READS); [ | apply ends_ret ].
    apply ends_bind; [ apply ends_decodeTOY; exact H2 | intros t ].
    apply ends_bind; [ apply ends_lift | intros rate; apply ends_ret ].
  - apply ends_bind; [ auto with outcomes | intros _; apply ends_exit; exact H2 ].
Qed.

Lemma ends_writeTOY_clock (codes : list Z) (regs : list Z) :
  ends_within codes (writeTOY (Z.lor TOY_CBURST TOY_GATHER) 0 regs).
Proof.
  apply ends_of_run. intros e w.
  destruct (bus_run_writeTOY (Z.lor TOY_CBURST TOY_GATHER) 0 regs e w)
    as (w' & E & _); [ discriminate | eauto ].
Qed.

(** With more fuel than [TOY_MAX_READS], [setTOY] does not hang: it returns,
    or exits with one of four codes. *)
Lemma ends_setTOY (LDBL_MANT_DIG ULONG_BITS TIME_BITS : Z) (cfg : config)
    (fuel : nat) (newtime : tm) :
  (Z.to_nat TOY_MAX_READS < fuel)%nat ->
  ends_within [EX_OSERR; EX_UNAVAILABLE; EX_CONFIG; EX_IOERR]
              (setTOY LDBL_MANT_DIG ULONG_BITS TIME_BITS cfg fuel newtime).
Proof.
  intros Hfuel. unfold setTOY, perror.
  apply ends_bind; [ apply ends_clock | intros [stime | ] ]; [ | ends ].
  apply ends_bind; [ apply ends_lift | intros start ].
  apply ends_bind; [ apply ends_readCalib | intros cal0 ].
  apply ends_bind; [ apply ends_lift | intros cal ].
  apply ends_bind; [ ends | intros _ ].
  apply ends_bind;
    [ apply ends_fit_drift; [ exact Hfuel | simpl; tauto | simpl; tauto ]
    | intros cal1 ].
  apply ends_bind; [ apply ends_clock | intros [etime | ] ]; [ | ends ].
  apply ends_bind; [ apply ends_lift | intros lastset' ].
  apply ends_bind; [ apply ends_lift | intros newt' ].
  destruct (gmtime_r _) as [newtime' | ]; [ | ends ].
  apply ends_bind; [ apply ends_unlockTOY; simpl; tauto | intros _ ].
  apply ends_bind; [ apply ends_writeTOY_clock | intros _ ].
  apply ends_bind; [ | intros _; apply ends_ret ].
  eapply ends_mono; [ | apply ends_writeCalib ].
  intros x [<- | [<- | []]]; simpl; tauto.
Qed.

(** ** Setting the clock: which rate is stored *)




(** A one-day-old record set again with the force flag: the guard is
    skipped, nothing is refitted, and the old rate is stored with the new set
    time. *)
Example setTOY_forced_young_keeps_rate :
  let cfg := mk_config false false false (Some calib_path) true false 12 in
  exists c w',
    setTOY 53 32 32 cfg 1 next_day_newtime
           (quiet_env [] next_day_now) (world_with readme_file)
    = (Ret c, w')
    /\ lastset c = inject_Z (next_day_now + 1)
    /\ fl 53 (driftrate readme_calib) = Some (driftrate c)
    /\ valid c = true
    /\ w_nin w' = 8%nat.
Proof.
  intros cfg. subst cfg. eexists. eexists.
  split; [ vm_compute; reflexivity | ].
  split; [ reflexivity | ].
  split; [ vm_compute; reflexivity | ]. repeat split.
Qed.

(** The README's record set against the running chip, in each format: the
    rate is refitted from the stabilized read (chip at 10:00:45 when the host
    reads 10:34:56), the new record replaces the file and the old file is
    kept as the backup.  The three formats differ in the last bits of the
    rate and print the same twelve decimals. *)
Example setTOY_refit_run :
  forall p : Z * Z * Z,
    In p [(53, 32, 32); (64, 64, 64); (113, 64, 64)] ->
    let '(ld, ul, tb) := p in
    exists c w',
      setTOY ld ul tb default_config 1 readme_newtime
             (quiet_env running_chip readme_now) (world_with readme_file)
      = (Ret c, w')
      /\ (Qabs (driftrate c
                - fit_as_specified readme_calib 1673776845
                                   (ts_seconds (mk_timespec (readme_now + 1) 0)))
          < 1 # 10 ^ 18)%Q
      /\ w_fs w' !! calib_path
         = Some (mk_file
                   ("1673778897.000000000 (Sun Jan 15 2023 10:34:57.000 UTC)"
                    ++ NL ++ "-0.000028106636 (-28.107 PPM)" ++ NL
                    ++ "UTC" ++ NL)%string
                   readme_now readme_now)
      /\ w_fs w' !! (calib_path ++ ".bak")%string = Some readme_file.
Proof.
  intros p [<- | [<- | [<- | []]]];
    (eexists; eexists; split; [ vm_compute; reflexivity | ];
     split; [ vm_compute; reflexivity | ]; split; reflexivity).
Qed.

(** What the record left by a rejected file leads to: set against the
    damaged file, [setTOY] stores the rate of the file it had just reported
    invalid, now marked valid. *)
Example setTOY_revalidates_damaged_file :
  exists c w' f,
    setTOY 53 32 32 default_config 1 readme_newtime
           (quiet_env [] readme_now) (world_with damaged_file)
    = (Ret c, w')
    /\ w_fs w' !! calib_path = Some f
    /\ parse_calib (f_data f)
       = Some (mk_calib (inject_Z (readme_now + 1)) (driftrate readme_calib)
                        true).
Proof.
  eexists. eexists. eexists. split; [ vm_compute; reflexivity | ].
  split; [ reflexivity | vm_compute; reflexivity ].
Qed.

(** ** Setting the clock: the young-calibration guard *)

(** C3 (as the code has it): the guard compares the age of the record in
    seconds with [calrundays * 24 * 60 * 60], a product formed in
    [unsigned long].  From 49711 days on with 32 bits (213503982334602 with
    64) the product wraps: against a minimum of 49711 days the README's
    record, one day old, is accepted without the force flag, the rate is
    refitted from that one day and the file is rewritten, the old one kept
    as the backup.  With the default 12 days the same set is refused and
    nothing is touched. *)
Theorem setTOY_young_calibration_accepted :
  (readCalib (caldays_config 49711) (quiet_env next_day_chip next_day_now)
             (world_with readme_file)
   = (Ret readme_calib, world_with readme_file)
   /\ valid readme_calib = true
   /\ force (caldays_config 49711) = false
   /\ (inject_Z next_day_now - lastset readme_calib
       < inject_Z (1 * 86400))%Q)
  /\ (calrun_seconds 32 (caldays_config 49711) = 63104
      /\ exists c w',
           setTOY 53 32 32 (caldays_config 49711) 1 next_day_newtime
                  (quiet_env next_day_chip next_day_now)
                  (world_with readme_file)
           = (Ret c, w')
           /\ w_err w' = []
           /\ w_fs w' !! calib_path
              = Some (mk_file
                        ("1600893208.000000000 (Wed Sep 23 2020 20:33:28.000 UTC)"
                         ++ NL ++ "-0.000011573952 (-11.574 PPM)" ++ NL
                         ++ "UTC" ++ NL)%string
                        next_day_now next_day_now)
           /\ w_fs w' !! (calib_path ++ ".bak")%string = Some readme_file)
  /\ (calrun_seconds 64 (caldays_config 213503982334602) = 61184
      /\ exists c w',
           setTOY 64 64 64 (caldays_config 213503982334602) 1 next_day_newtime
                  (quiet_env next_day_chip next_day_now)
                  (world_with readme_file)
           = (Ret c, w')
           /\ w_err w' = []
           /\ w_fs w' !! calib_path
              = Some (mk_file
                        ("1600893208.000000000 (Wed Sep 23 2020 20:33:28.000 UTC)"
                         ++ NL ++ "-0.000011573952 (-11.574 PPM)" ++ NL
                         ++ "UTC" ++ NL)%string
                        next_day_now next_day_now)
           /\ w_fs w' !! (calib_path ++ ".bak")%string = Some readme_file)
  /\ (exists w',
        setTOY 53 32 32 (caldays_config 12) 1 next_day_newtime
               (quiet_env next_day_chip next_day_now) (world_with readme_file)
        = (Exit EX_UNAVAILABLE, w')
        /\ w_err w' = ["Calibration must run at least 12 days, currently 0"%string]
        /\ w_fs w' = w_fs (world_with readme_file)
        /\ w_pins w' = []).
Proof.
  split; [ | split; [ | split ] ].
  - split; [ vm_compute; reflexivity | ].
    split; [ reflexivity | ]. split; [ reflexivity | ].
    vm_compute. reflexivity.
  - split; [ reflexivity | ].
    eexists. eexists. split; [ vm_compute; reflexivity | ].
    split; [ reflexivity | ]. split; reflexivity.
  - split; [ reflexivity | ].
    eexists. eexists. split; [ vm_compute; reflexivity | ].
    split; [ reflexivity | ]. split; reflexivity.
  - eexists. split; [ vm_compute; reflexivity | ].
    split; [ reflexivity | ]. split; reflexivity.
Qed.

(** The largest minimum whose count of seconds fits is still enforced. *)
Example setTOY_young_calibration_rejected_run :
  (exists w',
     setTOY 53 32 32 (caldays_config 49710) 1 next_day_newtime
            (quiet_env next_day_chip next_day_now) (world_with readme_file)
     = (Exit EX_UNAVAILABLE, w')
     /\ w_fs w' = w_fs (world_with readme_file))
  /\ (exists w',
        setTOY 64 64 64 (caldays_config 213503982334601) 1 next_day_newtime
               (quiet_env next_day_chip next_day_now) (world_with readme_file)
        = (Exit EX_UNAVAILABLE, w')
        /\ w_fs w' = w_fs (world_with readme_file)).
Proof.
  split; eexists; (split; [ vm_compute; reflexivity | reflexivity ]).
Qed.

(** ** Reading the clock *)

Lemma attempt_some_inv {A} (c : M A) (e : env) (w w' : world) (a : A) :
  attempt c e w = (Ret (Some a), w') -> c e w = (Ret a, w').
Proof.
  unfold attempt. destruct (c e w) as [[a' | code | | ] w1]; intros H;
    inversion H. reflexivity.
Qed.

(** Without a valid record, and with a rate of zero, the chip time is left
    as it is. *)
Lemma apply_drift_unchanged (LDBL_MANT_DIG TIME_BITS : Z) (c : calib)
    (toytime : Z) :
  valid c = false \/ (driftrate c == 0)%Q ->
  apply_drift LDBL_MANT_DIG TIME_BITS c toytime = Some toytime.
Proof.
  unfold apply_drift. intros [-> | H]; [ reflexivity | ].
  apply Qeq_bool_iff in H. rewrite H. destruct (valid c); reflexivity.
Qed.

(** Whenever [readUpdate] returns a time: the chip answered the first burst
    read with the must-be-zero bits and the halt bit clear, the seconds
    changed on some pass [j] before the bound, and the time is that of the
    registers read at the change, corrected by [apply_drift] with the record
    of [readCalib] as [long double] holds it. *)
Lemma readUpdate_ret_inv
    (LDBL_MANT_DIG TIME_BITS : Z) (cfg : config) (fuel : nat) (function : Z)
    (e : env) (w w' : world) (t : Z) :
  (Z.to_nat TOY_MAX_READS < fuel)%nat ->
  readUpdate LDBL_MANT_DIG TIME_BITS cfg fuel function e w = (Ret t, w') ->
  exists (read prior : calib) (w1 : world) (j : nat),
    readCalib cfg e w = (Ret read, w1)
    /\ ld_calib LDBL_MANT_DIG read = Some prior
    /\ Z.land (reg_get (burst e (w_nin w) 0) TOY_MON) TOY_M_MON_MBZ = 0
    /\ Z.land (reg_get (burst e (w_nin w) 0) TOY_SEC) TOY_M_HALT = 0
    /\ Z.of_nat j < TOY_MAX_READS
    /\ seconds_change_at e (w_nin w) j
    /\ timegm TIME_BITS (decodeTOY_tm (burst e (w_nin w) (2 * j + 1))) <> -1
    /\ apply_drift LDBL_MANT_DIG TIME_BITS prior
                   (timegm TIME_BITS
                           (decodeTOY_tm (burst e (w_nin w) (2 * j + 1))))
       = Some t.
Proof.
  intros Hfuel H. unfold readUpdate in H.
  apply bind_ret_inv in H as (loaded & w1 & Hc & H).
  destruct (attempt_readCalib_run cfg e w) as (o & w1' & Hc' & Hsame).
  rewrite Hc' in Hc. inversion Hc; subst o w1'. clear Hc.
  assert (N1 : w_nin w1 = w_nin w) by (destruct Hsame as (_ & N & _); exact N).
  apply bind_ret_inv in H as (regs & w2 & Hr & H).
  destruct (bus_run_readTOY_cburst 0 e w1) as (w2' & E2 & F2).
  rewrite E2 in Hr. inversion Hr; subst regs w2'. clear Hr.
  rewrite N1 in H.
  change (sample_at e (w_nin w)) with (burst e (w_nin w) 0) in H.
  assert (N2 : w_nin w2 = (64 + w_nin w)%nat)
    by (destruct F2 as (_ & N & _); lia).
  destruct (Z.land (reg_get (burst e (w_nin w) 0) TOY_MON) TOY_M_MON_MBZ =? 0)
    eqn:Hmbz; cbn [negb] in H;
    [ | unfold bind, eprint, exit in H; discriminate H ].
  destruct (Z.land (reg_get (burst e (w_nin w) 0) TOY_SEC) TOY_M_HALT =? 0)
    eqn:Hhalt; cbn [negb] in H;
    [ | unfold bind, eprint, exit in H; discriminate H ].
  apply Z.eqb_eq in Hmbz, Hhalt.
  apply bind_ret_inv in H as ([regs1 try] & w3 & Hs & H).
  apply bind_ret_inv in H as (systime & w4 & Hg & H).
  pose proof TOY_MAX_READS_nonneg as Hmax.
  remember (Z.to_nat TOY_MAX_READS) as m eqn:Hm.
  destruct (stabilize_cases m fuel 0 e w2 (w_nin w) N2 Hfuel ltac:(lia))
    as [(j & w3' & Hj & Hchg & Es & Fs) | (Hall & w3' & Es & Fs)];
    rewrite Es in Hs; inversion Hs; subst regs1 try w3'; clear Hs.
  - destruct (0 + Z.of_nat j >=? TOY_MAX_READS) eqn:Hge;
      [ unfold bind, eprint, exit in H; discriminate H | ].
    apply bind_ret_inv in H as (t0 & w5 & Hd & H).
    apply decodeTOY_ret_inv in Hd as (Ht0 & Hne & N5).
    apply bind_ret_inv in H as (read & w6 & Hl & H).
    apply lift_ret_inv in Hl as [-> ->].
    apply attempt_some_inv in Hc'.
    apply bind_ret_inv in H as (prior & w6 & Hp & H).
    apply lift_ret_inv in Hp as [Hp ->].
    apply bind_ret_inv in H as (t1 & w6 & Ha & H).
    apply lift_ret_inv in Ha as [Ha ->].
    apply bind_ret_inv in H as (sys2 & w6 & Hset & H).
    assert (Hfin : t = t1).
    { destruct ((function =? F_READ) || negb (quiet cfg));
        [ | inversion H; reflexivity ].
      apply bind_ret_inv in H as ([] & w7 & _ & H).
      destruct sys2 as [st | ];
        [ | unfold bind, perror, eprint, exit in H; discriminate H ].
      apply bind_ret_inv in H as ([] & w8 & _ & H).
      inversion H. reflexivity. }
    subst t1 t0.
    exists read, prior, w1, j.
    repeat split; try assumption; try apply Hchg.
    rewrite Z.geb_leb in Hge. apply Z.leb_gt in Hge. lia.
  - exfalso.
    replace (TOY_MAX_READS + 1 >=? TOY_MAX_READS) with true in H
      by reflexivity.
    unfold bind, eprint, exit in H. discriminate H.
Qed.

(** The README's run as a whole, in each format: calibration file,
    registers 10:00:45, report 10:35:59 UTC, which is 2114 seconds more and
    the whole second nearest to the corrected time as specified. *)
Example readUpdate_readme_run :
  forall p : Z * Z,
    In p [(53, 32); (64, 64); (113, 64)] ->
    exists w',
      readUpdate (fst p) (snd p) default_config 1 F_READ
                 (quiet_env running_chip readme_now) (world_with readme_file)
      = (Ret (1673776845 + 2114), w')
      /\ w_err w' = []
      /\ (Qabs (inject_Z (1673776845 + 2114)
                - corrected_exact readme_calib 1673776845) <= 1 # 2)%Q.
Proof.
  intros p [<- | [<- | [<- | []]]];
    (eexists; split; [ vm_compute; reflexivity | ];
     split; [ reflexivity | vm_compute; discriminate ]).
Qed.

(** With the damaged file the record is invalid and the chip time is
    reported as it is. *)
Example readUpdate_invalid_record_run :
  exists w',
    readUpdate 53 32 default_config 1 F_READ
               (quiet_env running_chip readme_now) (world_with damaged_file)
    = (Ret 1673776845, w')
    /\ timegm 32 (decodeTOY_tm (readme_regs 0x45)) = 1673776845.
Proof. eexists. split; vm_compute; reflexivity. Qed.

(** C1 (as the code has it): the corrected time is formed by adding 0.5
    and converting to [time_t], which discards the fraction.  Below zero that
    is not the nearest second.  With the record [quarter_calib] (valid, rate
    -1/4) and the README's registers, the corrected time as specified is
    -13/4; the nearest whole second is -3, and [readUpdate] reports -2, more
    than a second away, in every format and without rounding in any step. *)
Theorem readUpdate_negative_time_not_nearest :
  readCalib default_config (quiet_env running_chip readme_now)
            (world_with quarter_file)
  = (Ret quarter_calib, world_with quarter_file)
  /\ timegm 32 (decodeTOY_tm (readme_regs 0x45)) = 1673776845
  /\ (corrected_exact quarter_calib 1673776845 == -13 # 4)%Q
  /\ (exists w',
        readUpdate 53 32 default_config 1 F_READ
                   (quiet_env running_chip readme_now)
                   (world_with quarter_file)
        = (Ret (-2), w') /\ w_err w' = [])
  /\ (exists w',
        readUpdate 64 64 default_config 1 F_READ
                   (quiet_env running_chip readme_now)
                   (world_with quarter_file)
        = (Ret (-2), w') /\ w_err w' = [])
  /\ (exists w',
        readUpdate 113 64 default_config 1 F_READ
                   (quiet_env running_chip readme_now)
                   (world_with quarter_file)
        = (Ret (-2), w') /\ w_err w' = [])
  /\ (Qabs (inject_Z (-2) - corrected_exact quarter_calib 1673776845)
      == 5 # 4)%Q
  /\ (Qabs (inject_Z (-3) - corrected_exact quarter_calib 1673776845)
      == 1 # 4)%Q.
Proof.
  split; [ vm_compute; reflexivity | ].
  split; [ vm_compute; reflexivity | ].
  split; [ vm_compute; reflexivity | ].
  split; [ eexists; split; [ vm_compute; reflexivity | reflexivity ] | ].
  split; [ eexists; split; [ vm_compute; reflexivity | reflexivity ] | ].
  split; [ eexists; split; [ vm_compute; reflexivity | reflexivity ] | ].
  split; vm_compute; reflexivity.
Qed.
